(** * TinyCloud + World authentication handshake (src/lib/tcw-auth.ts)

    A shallow embedding of the five exported functions of [tcw-auth.ts]:
    [getWalletAddress], [signSiweWithWorld], [initializeTCWSession],
    [generateSiweWithTCW] and [performTCWWorldAuth], with the properties
    of the handshake proved over it.

    Conventions of the embedding.
    - An [async] function is a computation in the monad [M]: it reads the
      ambient [World] (window, crypto, clock, MiniKit), threads the
      [History] of what the program has done so far, and ends in a value
      ([Ok], the promise fulfils) or a thrown JavaScript value ([Throw],
      the promise rejects).  [await] is sequencing.
    - Everything outside the file (MiniKit, the TinyCloud instance, the
      sign-in message's [prepareMessage], the clock, the random sources)
      is an oracle: a function of the history at the moment of the call,
      so that two calls of the same operation may answer differently.
    - A stage function records its call and the settling of its promise
      in the history, around its body; the other events are the calls
      that leave the module, with their arguments.
    - A JavaScript string is a sequence of UTF-16 code units; the model
      covers the strings whose code units are below 256, one [ascii] per
      code unit, so that [String.length] is [.length]. *)

From Stdlib Require Import String Ascii List ZArith Bool Lia.
Import ListNotations.
Set Warnings "-register-all".
Local Open Scope string_scope.

(** ** JavaScript values the module handles *)

(** What a [catch] clause can receive.  [error instanceof TCWAuthError]
    holds exactly for the first constructor: the class of lines 22-31,
    with its [message], its [code] and its optional [cause]. *)
Inductive JsError : Type :=
| TCWAuthError (message code : string) (cause : option JsError)
| ForeignError (name message : string).

Definition instanceof_TCWAuthError (error : JsError) : bool :=
  match error with
  | TCWAuthError _ _ _ => true
  | ForeignError _ _ => false
  end.

Definition error_code (error : JsError) : option string :=
  match error with
  | TCWAuthError _ code _ => Some code
  | ForeignError _ _ => None
  end.

Definition error_message (error : JsError) : string :=
  match error with
  | TCWAuthError message _ _ => message
  | ForeignError _ message => message
  end.

Inductive Outcome (A : Type) : Type :=
| Ok (value : A)
| Throw (error : JsError).
Arguments Ok {A} value.
Arguments Throw {A} error.

(** The [TypeError], [ReferenceError] and [RangeError] the engine raises
    by itself. *)
Definition TypeError_not_a_function (what : string) : JsError :=
  ForeignError "TypeError" (what ++ " is not a function").

Definition ReferenceError_not_defined (what : string) : JsError :=
  ForeignError "ReferenceError" (what ++ " is not defined").

Definition RangeError_invalid_time : JsError :=
  ForeignError "RangeError" "Invalid time value".

(** ** Strings *)

Module JsString.

(** [s.startsWith(p)] *)
Definition startsWith (s p : string) : bool := String.prefix p s.

(** [s.slice(from, to)] for [0 <= from <= to]. *)
Definition slice (s : string) (from to : nat) : string :=
  String.substring from (to - from) s.

(** [!s] for a string: only the empty string is falsy. *)
Definition falsy (s : string) : bool :=
  match s with
  | EmptyString => true
  | String _ _ => false
  end.

Fixpoint repeat (c : ascii) (n : nat) : string :=
  match n with
  | O => EmptyString
  | S k => String c (repeat c k)
  end.

End JsString.

(** ** Dates: [new Date(v).toISOString()] *)

Module JsDate.
Local Open Scope Z_scope.

Definition msPerDay : Z := 86400000.

(** A time value is valid when [|v| <= 8.64e15]; [new Date(v)] of
    anything else is an Invalid Date. *)
Definition maxTime : Z := 8640000000000000.
Definition validTime (v : Z) : bool := (- maxTime <=? v) && (v <=? maxTime).

(** A [Date] object by its time value, [None] for an Invalid Date. *)
Definition date : Type := option Z.

(** [new Date(v)] for an integral number [v]: the time value is [v] when
    it is valid, and the date is an Invalid Date otherwise. *)
Definition new_Date (v : Z) : date := if validTime v then Some v else None.

(** Year, month and day of a day number counted from 1970-01-01, in the
    proleptic Gregorian calendar. *)
Definition civil_from_days (days : Z) : Z * Z * Z :=
  let z := days + 719468 in
  let era := z / 146097 in
  let doe := z - era * 146097 in
  let yoe := (doe - doe / 1460 + doe / 36524 - doe / 146096) / 365 in
  let doy := doe - (365 * yoe + yoe / 4 - yoe / 100) in
  let mp := (5 * doy + 2) / 153 in
  let d := doy - (153 * mp + 2) / 5 + 1 in
  let m := if mp <? 10 then mp + 3 else mp - 9 in
  let y := yoe + era * 400 + (if m <=? 2 then 1 else 0) in
  (y, m, d).

Definition digit (n : Z) : ascii := ascii_of_nat (48 + Z.to_nat (n mod 10)).

(** [n] in decimal, on exactly [width] digits. *)
Fixpoint pad (width : nat) (n : Z) : string :=
  match width with
  | O => EmptyString
  | S k => pad k (n / 10) ++ String (digit n) EmptyString
  end.

(** Years 0 to 9999 take four digits, the others a sign and six. *)
Definition isoYear (y : Z) : string :=
  if (0 <=? y) && (y <=? 9999) then pad 4 y
  else String.append (if y <? 0 then "-" else "+") (pad 6 (Z.abs y)).

Definition render (v : Z) : string :=
  let days := v / msPerDay in
  let ms := v mod msPerDay in
  let '(y, m, d) := civil_from_days days in
  (isoYear y ++ "-" ++ pad 2 m ++ "-" ++ pad 2 d ++ "T"
   ++ pad 2 (ms / 3600000) ++ ":" ++ pad 2 (ms / 60000 mod 60) ++ ":"
   ++ pad 2 (ms / 1000 mod 60) ++ "." ++ pad 3 (ms mod 1000) ++ "Z")%string.

(** [new Date(v).toISOString()]: a [RangeError] on an Invalid Date. *)
Definition toISOString (v : Z) : Outcome string :=
  if validTime v then Ok (render v) else Throw RangeError_invalid_time.

End JsDate.


(** ** Data model *)

Local Open Scope list_scope.

(** [window.location], read for the domain and the uri of the message. *)
Record Window : Type := {
  location_host : string;
  location_origin : string
}.

(** The object literal [siweMessageConfig] of lines 188-196. *)
Record SiweMessageConfig : Type := {
  cfg_statement : string;
  cfg_domain : string;
  cfg_uri : string;
  cfg_version : string;
  cfg_chainId : Z;
  cfg_expirationTime : string;
  cfg_notBefore : string
}.

(** The argument of [MiniKit.commandsAsync.walletAuth], lines 81-87, with
    its two [Date] objects. *)
Record WalletAuthInput : Type := {
  wa_nonce : string;
  wa_requestId : string;
  wa_expirationTime : JsDate.date;
  wa_notBefore : JsDate.date;
  wa_statement : string
}.

(** The [finalPayload] of a wallet-auth command: a union discriminated by
    its [status], ["success"] or ["error"]. *)
Inductive FinalPayload : Type :=
| SuccessPayload (signature : string)
| ErrorPayload (error_code : string).

Definition status (finalPayload : FinalPayload) : string :=
  match finalPayload with
  | SuccessPayload _ => "success"
  | ErrorPayload _ => "error"
  end.

(** [MiniKit.user], whose [walletAddress] is optional. *)
Record User : Type := { walletAddress : option string }.

(** The four stages of the handshake, in the order of the pipeline. *)
Inductive Stage : Type :=
| StGetWalletAddress
| StGenerateSiweWithTCW
| StSignSiweWithWorld
| StInitializeTCWSession.

(** What the program does that can be observed from outside: a stage
    function is called and its promise settles, and the calls that leave
    the module.  An event records the call and its arguments, never the
    answer. *)
Inductive Event : Type :=
| EvCall (stage : Stage)
| EvFulfilled (stage : Stage)
| EvRejected (stage : Stage)
| EvIsInstalled
| EvWalletAuth (input : WalletAuthInput)
| EvGenerateSiweMessage (address : string) (config : SiweMessageConfig)
| EvPrepareMessage
| EvDateNow
| EvRandomUUID
| EvMathRandom
| EvConsoleLog (label : string).

(** Oldest event first. *)
Definition History : Type := list Event.

(** [interface SimpleSiweMessage], lines 3-13.  [prepareMessage] is a
    method of an object built outside this module: it may throw, and
    nothing in the interface makes two calls agree. *)
Record SimpleSiweMessage : Type := {
  prepareMessage : History -> Outcome string;
  address : string;
  statement : option string;
  domain : option string;
  uri : option string;
  version : option string;
  chainId : option Z;
  expirationTime : option string;
  notBefore : option string
}.

(** The placeholder session literal of lines 127-131. *)
Record PlaceholderSession : Type := {
  ps_initialized : bool;
  ps_address : string;
  ps_timestamp : Z
}.

(** [interface TCWAuthSession], lines 15-20. *)
Record TCWAuthSession : Type := {
  session_address : string;
  session_signature : string;
  session_message : string;
  tcwSession : PlaceholderSession
}.

(** The result of [signSiweWithWorld]: [{ signature: string }]. *)
Record SignResult : Type := { signature : string }.

(** The [tcw: any] argument.  [!tcw] holds for [TcwFalsy] ([null],
    [undefined]); an instance may or may not carry a
    [generateSiweMessage] method. *)
Inductive TinyCloudWeb : Type :=
| TcwFalsy
| TcwInstance
    (generateSiweMessage :
       option (History -> string -> SiweMessageConfig -> Outcome SimpleSiweMessage)).

(** ** The world around the module *)

(** The global [crypto], whose [randomUUID] exists only in some hosts. *)
Record Crypto : Type := { randomUUID : option (History -> string) }.

(** The imported [MiniKit] singleton. *)
Record MiniKitApi : Type := {
  isInstalled : History -> Outcome bool;
  user : History -> option User;
  walletAuth : History -> WalletAuthInput -> Outcome FinalPayload
}.

(** [window] and [crypto] are [None] when [typeof] gives ["undefined"].
    [Math_random] answers with [Math.random().toString(36)], the only
    form in which the module uses the number. *)
Record World : Type := {
  window : option Window;
  crypto : option Crypto;
  Date_now : History -> Z;
  Math_random : History -> string;
  MiniKit : MiniKitApi
}.

(** ** The monad of asynchronous computations *)

Definition M (A : Type) : Type := World -> History -> Outcome A * History.

Definition ret {A} (a : A) : M A := fun _ h => (Ok a, h).

Definition throw {A} (error : JsError) : M A := fun _ h => (Throw error, h).

Definition bind {A B} (m : M A) (k : A -> M B) : M B :=
  fun w h =>
    match m w h with
    | (Ok a, h') => k a w h'
    | (Throw error, h') => (Throw error, h')
    end.

(** [try { body } catch (error) { handler }] *)
Definition try_catch {A} (body : M A) (handler : JsError -> M A) : M A :=
  fun w h =>
    match body w h with
    | (Ok a, h') => (Ok a, h')
    | (Throw error, h') => handler error w h'
    end.

(** An oracle is asked at the present history; the call is then
    recorded. *)
Definition ask {A} (oracle : World -> History -> Outcome A) (ev : Event) : M A :=
  fun w h => (oracle w h, h ++ [ev]).

Definition emit (ev : Event) : M unit := fun _ h => (Ok tt, h ++ [ev]).

Definition read {A} (field : World -> A) : M A := fun w h => (Ok (field w), h).

Definition lift {A} (o : Outcome A) : M A := fun _ h => (o, h).

(** [if (c) { throw error; }] *)
Definition throw_if (c : bool) (error : JsError) : M unit :=
  fun w h => if c then throw error w h else ret tt w h.

Declare Scope js_scope.
Delimit Scope js_scope with js.
Notation "x <- m ;; k" := (bind m (fun x => k))
  (at level 61, m at next level, right associativity) : js_scope.
Notation "m ;; k" := (bind m (fun _ => k))
  (at level 61, right associativity) : js_scope.
Local Open Scope js_scope.

(** A stage function: its call and the settling of its promise are
    recorded around its body. *)
Definition stage {A} (s : Stage) (body : M A) : M A :=
  fun w h =>
    match body w (h ++ [EvCall s]) with
    | (Ok a, h') => (Ok a, h' ++ [EvFulfilled s])
    | (Throw error, h') => (Throw error, h' ++ [EvRejected s])
    end.

(** The [catch] clause of lines 54-63, 97-106, 204-213 and 256-265:
    a [TCWAuthError] is thrown again as it is, anything else is wrapped. *)
Definition rethrow_or_wrap {A} (message code : string) (error : JsError) : M A :=
  fun w h =>
    if instanceof_TCWAuthError error then throw error w h
    else throw (TCWAuthError message code (Some error)) w h.

(** ** Calls that leave the module *)

Definition MiniKit_isInstalled : M bool :=
  ask (fun w => isInstalled (MiniKit w)) EvIsInstalled.

Definition MiniKit_user : M (option User) :=
  fun w h => (Ok (user (MiniKit w) h), h).

Definition MiniKit_walletAuth (input : WalletAuthInput) : M FinalPayload :=
  ask (fun w h => walletAuth (MiniKit w) h input) (EvWalletAuth input).

Definition Date_now_call : M Z :=
  ask (fun w h => Ok (Date_now w h)) EvDateNow.

Definition console_log (label : string) : M unit := emit (EvConsoleLog label).

(** [crypto.randomUUID()] with no guard, as line 82 calls it. *)
Definition crypto_randomUUID : M string :=
  c <- read crypto ;;
  match c with
  | None => throw (ReferenceError_not_defined "crypto")
  | Some c =>
      match randomUUID c with
      | None => throw (TypeError_not_a_function "crypto.randomUUID")
      | Some uuid => ask (fun _ h => Ok (uuid h)) EvRandomUUID
      end
  end.

(** [siweMessage.prepareMessage()] *)
Definition call_prepareMessage (siweMessage : SimpleSiweMessage) : M string :=
  ask (fun _ h => prepareMessage siweMessage h) EvPrepareMessage.

(** [tcw.generateSiweMessage(address, config)] on a truthy [tcw]. *)
Definition tcw_generateSiweMessage (tcw : TinyCloudWeb) (address : string)
    (config : SiweMessageConfig) : M SimpleSiweMessage :=
  match tcw with
  | TcwFalsy => throw (ForeignError "TypeError" "Cannot read properties of null")
  | TcwInstance None => throw (TypeError_not_a_function "tcw.generateSiweMessage")
  | TcwInstance (Some generate) =>
      ask (fun _ h => generate h address config) (EvGenerateSiweMessage address config)
  end.

Definition tcw_falsy (tcw : TinyCloudWeb) : bool :=
  match tcw with
  | TcwFalsy => true
  | TcwInstance _ => false
  end.

(** ** The five functions of [tcw-auth.ts] *)

(** [user?.walletAddress] when it is truthy. *)
Definition truthy_walletAddress (u : option User) : option string :=
  match u with
  | Some {| walletAddress := Some a |} => if JsString.falsy a then None else Some a
  | _ => None
  end.

(** Lines 36-64. *)
Definition getWalletAddress : M string :=
  stage StGetWalletAddress
    (try_catch
       (installed <- MiniKit_isInstalled ;;
        throw_if (negb installed)
          (TCWAuthError "MiniKit is not installed" "MINIKIT_NOT_INSTALLED" None) ;;
        u <- MiniKit_user ;;
        match truthy_walletAddress u with
        | None =>
            throw (TCWAuthError "No wallet address available from MiniKit"
                     "NO_WALLET_ADDRESS" None)
        | Some a => ret a
        end)
       (rethrow_or_wrap "Failed to get wallet address" "WALLET_ADDRESS_ERROR")).

(** Lines 69-107. *)
Definition signSiweWithWorld (message : string) : M SignResult :=
  stage StSignSiweWithWorld
    (try_catch
       (installed <- MiniKit_isInstalled ;;
        throw_if (negb installed)
          (TCWAuthError "MiniKit is not installed" "MINIKIT_NOT_INSTALLED" None) ;;
        nonce <- crypto_randomUUID ;;
        t1 <- Date_now_call ;;
        t2 <- Date_now_call ;;
        finalPayload <-
          MiniKit_walletAuth
            {| wa_nonce := nonce;
               wa_requestId := "tcw-auth";
               wa_expirationTime := JsDate.new_Date (t1 + 24 * 60 * 60 * 1000)%Z;
               wa_notBefore := JsDate.new_Date (t2 - 60 * 1000)%Z;
               wa_statement := message |} ;;
        match finalPayload with
        | ErrorPayload _ => (* finalPayload.status === "error" *)
            throw (TCWAuthError "Failed to sign message with World"
                     "WORLD_SIGN_ERROR" None)
        | SuccessPayload sig => ret {| signature := sig |}
        end)
       (rethrow_or_wrap "Failed to sign SIWE message with World" "WORLD_SIGN_ERROR")).

(** Lines 112-146.  The [catch] clause wraps whatever it receives. *)
Definition initializeTCWSession (tcw : TinyCloudWeb)
    (siweMessage : SimpleSiweMessage) (sig : string) : M TCWAuthSession :=
  stage StInitializeTCWSession
    (try_catch
       (timestamp <- Date_now_call ;;
        let placeholder :=
          {| ps_initialized := true;
             ps_address := address siweMessage;
             ps_timestamp := timestamp |} in
        message <- call_prepareMessage siweMessage ;;
        ret {| session_address := address siweMessage;
               session_signature := sig;
               session_message := message;
               tcwSession := placeholder |})
       (fun error =>
          throw (TCWAuthError "Failed to initialize TCW session"
                   "TCW_SESSION_INIT_ERROR" (Some error)))).

(** The test of line 167:
    [!address || !address.startsWith("0x") || address.length !== 42]. *)
Definition invalid_address (a : string) : bool :=
  JsString.falsy a
  || negb (JsString.startsWith a "0x")
  || negb (Nat.eqb (String.length a) 42).

(** Lines 183-186: the correlation token. *)
Definition randomId : M string :=
  c <- read crypto ;;
  match c with
  | Some {| randomUUID := Some uuid |} =>
      u <- ask (fun _ h => Ok (uuid h)) EvRandomUUID ;;
      ret (JsString.slice u 0 8)
  | _ =>
      r <- ask (fun w h => Ok (Math_random w h)) EvMathRandom ;;
      ret (JsString.slice r 2 10)
  end.

(** Lines 154-214. *)
Definition generateSiweWithTCW (tcw : TinyCloudWeb) (a : string) : M SimpleSiweMessage :=
  stage StGenerateSiweWithTCW
    (try_catch
       (throw_if (tcw_falsy tcw)
          (TCWAuthError "TCW instance is not available" "TCW_NOT_INITIALIZED" None) ;;
        throw_if (invalid_address a)
          (TCWAuthError "Invalid Ethereum address format" "INVALID_ADDRESS" None) ;;
        win <- read window ;;
        match win with
        | None =>
            throw (TCWAuthError
                     "TCW authentication must be called in browser environment"
                     "NOT_BROWSER_ENVIRONMENT" None)
        | Some win =>
            _ <- randomId ;;
            t1 <- Date_now_call ;;
            expiration <- lift (JsDate.toISOString (t1 + 24 * 60 * 60 * 1000)%Z) ;;
            t2 <- Date_now_call ;;
            notbefore <- lift (JsDate.toISOString (t2 - 60 * 1000)%Z) ;;
            let siweMessageConfig :=
              {| cfg_statement := "Sign in to World Mini App with TinyCloud";
                 cfg_domain := location_host win;
                 cfg_uri := location_origin win;
                 cfg_version := "1";
                 cfg_chainId := 1%Z;
                 cfg_expirationTime := expiration;
                 cfg_notBefore := notbefore |} in
            siweMessage <- tcw_generateSiweMessage tcw a siweMessageConfig ;;
            ret siweMessage
        end)
       (rethrow_or_wrap "Failed to generate SIWE message with TCW"
          "SIWE_GENERATION_ERROR")).

(** Lines 221-266. *)
Definition performTCWWorldAuth (tcw : TinyCloudWeb) : M TCWAuthSession :=
  try_catch
    (win <- read window ;;
     throw_if (match win with None => true | Some _ => false end)
       (TCWAuthError
          "TCW + World authentication can only be performed in browser environment"
          "NOT_BROWSER_ENVIRONMENT" None) ;;
     console_log "Starting TCW + World authentication flow..." ;;
     a <- getWalletAddress ;;
     console_log "Got wallet address:" ;;
     siweMessage <- generateSiweWithTCW tcw a ;;
     console_log "Generated SIWE message:" ;;
     text <- call_prepareMessage siweMessage ;;
     signResult <- signSiweWithWorld text ;;
     console_log "Got signature from World:" ;;
     session <- initializeTCWSession tcw siweMessage (signature signResult) ;;
     console_log "TCW session initialized:" ;;
     ret session)
    (rethrow_or_wrap "TCW + World authentication flow failed" "AUTH_FLOW_ERROR").

(** ** Observations on a history *)

Definition is_stage_event (e : Event) : bool :=
  match e with
  | EvCall _ | EvFulfilled _ | EvRejected _ => true
  | _ => false
  end.

(** The stage events of a history, in order. *)
Definition stage_trace (h : History) : History := filter is_stage_event h.



Definition invoked (s : Stage) (h : History) : Prop := In (EvCall s) h.


(** How the promise of a stage settles. *)
Definition settled {A} (s : Stage) (r : Outcome A) : Event :=
  match r with
  | Ok _ => EvFulfilled s
  | Throw _ => EvRejected s
  end.

Definition is_wallet_event (e : Event) : bool :=
  match e with
  | EvWalletAuth _ => true
  | _ => false
  end.

(** A computation is silent for a class of events when it only extends
    the history, and by no event of the class. *)
Definition silent {A} (class : Event -> bool) (m : M A) : Prop :=
  forall w h, exists tr, snd (m w h) = h ++ tr /\ filter class tr = [].

(** Quiet: neither calls a stage nor settles one. *)
Definition quiet {A} (m : M A) : Prop := silent is_stage_event m.

(** A computation runs as the stage [s] when the stage events it adds are
    the call of [s] and its settling, in agreement with its outcome. *)
Definition runs_as_stage {A} (s : Stage) (m : M A) : Prop :=
  forall w h, exists tr,
    snd (m w h) = h ++ tr /\
    stage_trace tr = [EvCall s; settled s (fst (m w h))].





(** ** The runs of the pipeline *)

(** What a catch clause with the [instanceof] test throws for [e]. *)
Definition surfaced (message code : string) (e : JsError) : JsError :=
  if instanceof_TCWAuthError e then e else TCWAuthError message code (Some e).

Definition surfaced_by_flow : JsError -> JsError :=
  surfaced "TCW + World authentication flow failed" "AUTH_FLOW_ERROR".

(** The seven ways a run of [performTCWWorldAuth] from the history [h] can
    go, each with the outcome and the final history: it stops at the
    window test, at one of the four stages, at the rendering of the
    message between the second and the third stage, or it completes. *)
Inductive pipeline_run (tcw : TinyCloudWeb) (w : World) (h : History) :
  Outcome TCWAuthSession * History -> Prop :=
| run_no_window :
    window w = None ->
    pipeline_run tcw w h
      (Throw (TCWAuthError
                "TCW + World authentication can only be performed in browser environment"
                "NOT_BROWSER_ENVIRONMENT" None), h)
| run_address_failed win e h1 :
    window w = Some win ->
    getWalletAddress w
      (h ++ [EvConsoleLog "Starting TCW + World authentication flow..."])
      = (Throw e, h1) ->
    pipeline_run tcw w h (Throw (surfaced_by_flow e), h1)
| run_generation_failed win a h1 e h2 :
    window w = Some win ->
    getWalletAddress w
      (h ++ [EvConsoleLog "Starting TCW + World authentication flow..."])
      = (Ok a, h1) ->
    generateSiweWithTCW tcw a w (h1 ++ [EvConsoleLog "Got wallet address:"])
      = (Throw e, h2) ->
    pipeline_run tcw w h (Throw (surfaced_by_flow e), h2)
| run_rendering_failed win a h1 siweMessage h2 e :
    window w = Some win ->
    getWalletAddress w
      (h ++ [EvConsoleLog "Starting TCW + World authentication flow..."])
      = (Ok a, h1) ->
    generateSiweWithTCW tcw a w (h1 ++ [EvConsoleLog "Got wallet address:"])
      = (Ok siweMessage, h2) ->
    prepareMessage siweMessage (h2 ++ [EvConsoleLog "Generated SIWE message:"])
      = Throw e ->
    pipeline_run tcw w h
      (Throw (surfaced_by_flow e),
       h2 ++ [EvConsoleLog "Generated SIWE message:"; EvPrepareMessage])
| run_signing_failed win a h1 siweMessage h2 text e h3 :
    window w = Some win ->
    getWalletAddress w
      (h ++ [EvConsoleLog "Starting TCW + World authentication flow..."])
      = (Ok a, h1) ->
    generateSiweWithTCW tcw a w (h1 ++ [EvConsoleLog "Got wallet address:"])
      = (Ok siweMessage, h2) ->
    prepareMessage siweMessage (h2 ++ [EvConsoleLog "Generated SIWE message:"])
      = Ok text ->
    signSiweWithWorld text w
      (h2 ++ [EvConsoleLog "Generated SIWE message:"; EvPrepareMessage])
      = (Throw e, h3) ->
    pipeline_run tcw w h (Throw (surfaced_by_flow e), h3)
| run_initialization_failed win a h1 siweMessage h2 text signResult h3 e h4 :
    window w = Some win ->
    getWalletAddress w
      (h ++ [EvConsoleLog "Starting TCW + World authentication flow..."])
      = (Ok a, h1) ->
    generateSiweWithTCW tcw a w (h1 ++ [EvConsoleLog "Got wallet address:"])
      = (Ok siweMessage, h2) ->
    prepareMessage siweMessage (h2 ++ [EvConsoleLog "Generated SIWE message:"])
      = Ok text ->
    signSiweWithWorld text w
      (h2 ++ [EvConsoleLog "Generated SIWE message:"; EvPrepareMessage])
      = (Ok signResult, h3) ->
    initializeTCWSession tcw siweMessage (signature signResult) w
      (h3 ++ [EvConsoleLog "Got signature from World:"])
      = (Throw e, h4) ->
    pipeline_run tcw w h (Throw (surfaced_by_flow e), h4)
| run_completed win a h1 siweMessage h2 text signResult h3 session h4 :
    window w = Some win ->
    getWalletAddress w
      (h ++ [EvConsoleLog "Starting TCW + World authentication flow..."])
      = (Ok a, h1) ->
    generateSiweWithTCW tcw a w (h1 ++ [EvConsoleLog "Got wallet address:"])
      = (Ok siweMessage, h2) ->
    prepareMessage siweMessage (h2 ++ [EvConsoleLog "Generated SIWE message:"])
      = Ok text ->
    signSiweWithWorld text w
      (h2 ++ [EvConsoleLog "Generated SIWE message:"; EvPrepareMessage])
      = (Ok signResult, h3) ->
    initializeTCWSession tcw siweMessage (signature signResult) w
      (h3 ++ [EvConsoleLog "Got signature from World:"])
      = (Ok session, h4) ->
    pipeline_run tcw w h
      (Ok session, h4 ++ [EvConsoleLog "TCW session initialized:"]).

(** The rendering of a message is deterministic when every call of
    [prepareMessage] gives the same answer. *)
Definition deterministic_rendering (siweMessage : SimpleSiweMessage) : Prop :=
  forall h1 h2, prepareMessage siweMessage h1 = prepareMessage siweMessage h2.

(** ** The address format the specification asks for *)

Definition is_hex_digit (c : ascii) : bool :=
  let n := nat_of_ascii c in
  (Nat.leb 48 n && Nat.leb n 57) || (Nat.leb 97 n && Nat.leb n 102)
  || (Nat.leb 65 n && Nat.leb n 70).

Fixpoint all_hex (s : string) : bool :=
  match s with
  | EmptyString => true
  | String c rest => is_hex_digit c && all_hex rest
  end.

(** Follows the specification's words, not the code: an address is the
    prefix ["0x"] followed by hexadecimal digits, 42 characters in all. *)
Definition spec_address_format (a : string) : bool :=
  JsString.startsWith a "0x"
  && Nat.eqb (String.length a) 42
  && all_hex (JsString.slice a 2 (String.length a)).

(** ** Randomness as a parameter of the world *)

(** The same world with other values coming out of its random sources:
    what is defined stays defined, only the answers change. *)
Definition with_random_values (w : World) (uuid rnd : History -> string) : World :=
  {| window := window w;
     crypto :=
       match crypto w with
       | None => None
       | Some c =>
           Some {| randomUUID :=
                     match randomUUID c with
                     | None => None
                     | Some _ => Some uuid
                     end |}
       end;
     Date_now := Date_now w;
     Math_random := rnd;
     MiniKit := MiniKit w |}.

(** ** Sample collaborators *)

Definition sample_message (text a : string) : SimpleSiweMessage :=
  {| prepareMessage := fun _ => Ok text;
     address := a;
     statement := None; domain := None; uri := None; version := None;
     chainId := None; expirationTime := None; notBefore := None |}.

(** A session layer that renders every message as ["T"]. *)
Definition sample_tcw : TinyCloudWeb :=
  TcwInstance (Some (fun _ a _ => Ok (sample_message "T" a))).

Definition sample_address : string := "0xAbC123000000000000000000000000000000dEaD".

Definition sample_window : Window :=
  {| location_host := "app.example"; location_origin := "https://app.example" |}.

Definition sample_minikit (answer : Outcome FinalPayload) : MiniKitApi :=
  {| isInstalled := fun _ => Ok true;
     user := fun _ => Some {| walletAddress := Some sample_address |};
     walletAuth := fun _ _ => answer |}.

(** A browser at 2023-11-14T22:13:20Z whose wallet answers every signing
    request with [answer]. *)
Definition sample_world (answer : Outcome FinalPayload) : World :=
  {| window := Some sample_window;
     crypto :=
       Some {| randomUUID := Some (fun _ => "123e4567-e89b-12d3-a456-426614174000") |};
     Date_now := fun _ => 1700000000000%Z;
     Math_random := fun _ => "0.4fzyo82mvyr";
     MiniKit := sample_minikit answer |}.

(** The same outside a browser: [typeof window] is ["undefined"]. *)
Definition server_world : World :=
  {| window := None;
     crypto := crypto (sample_world (Ok (SuccessPayload "0xsig")));
     Date_now := fun _ => 1700000000000%Z;
     Math_random := fun _ => "0.4fzyo82mvyr";
     MiniKit := sample_minikit (Ok (SuccessPayload "0xsig")) |}.

(** ["0x"] and forty times the letter z: right prefix, right length, no
    hexadecimal digit. *)
Definition non_hex_address : string :=
  String "0" (String "x" (JsString.repeat "z" 40)).

(** A message whose rendering throws an error that is already classified. *)
Definition failing_message (a : string) : SimpleSiweMessage :=
  {| prepareMessage :=
       fun _ => Throw (TCWAuthError "Invalid message" "INVALID_MESSAGE" None);
     address := a;
     statement := None; domain := None; uri := None; version := None;
     chainId := None; expirationTime := None; notBefore := None |}.

(** A message that renders as ["T"] until the wallet has been asked, and
    whose rendering throws a classified error afterwards. *)
Definition flaky_message (a : string) : SimpleSiweMessage :=
  {| prepareMessage :=
       fun h =>
         if existsb is_wallet_event h
         then Throw (TCWAuthError "Invalid message" "INVALID_MESSAGE" None)
         else Ok "T";
     address := a;
     statement := None; domain := None; uri := None; version := None;
     chainId := None; expirationTime := None; notBefore := None |}.

(** A session layer that returns such a message, and one whose
    [generateSiweMessage] throws a classified error. *)
Definition flaky_tcw : TinyCloudWeb :=
  TcwInstance (Some (fun _ a _ => Ok (flaky_message a))).

Definition throwing_tcw : TinyCloudWeb :=
  TcwInstance
    (Some (fun _ _ _ => Throw (TCWAuthError "Invalid message" "INVALID_MESSAGE" None))).

(** ** Errors that come from outside *)

(** An outcome is foreign when what it throws, if it throws, is no
    [TCWAuthError]: MiniKit and the session layer have their own errors
    and do not know the class of this module. *)
Definition foreign_outcome {A} (o : Outcome A) : Prop :=
  match o with
  | Ok _ => True
  | Throw e => instanceof_TCWAuthError e = false
  end.

Definition foreign_world (w : World) : Prop :=
  (forall h, foreign_outcome (isInstalled (MiniKit w) h))
  /\ (forall h input, foreign_outcome (walletAuth (MiniKit w) h input)).

Definition foreign_message (siweMessage : SimpleSiweMessage) : Prop :=
  forall h, foreign_outcome (prepareMessage siweMessage h).

Definition foreign_tcw (tcw : TinyCloudWeb) : Prop :=
  match tcw with
  | TcwInstance (Some generate) =>
      forall h a config,
        foreign_outcome (generate h a config)
        /\ (forall siweMessage,
              generate h a config = Ok siweMessage -> foreign_message siweMessage)
  | _ => True
  end.

(** The codes given to [new TCWAuthError] in the file, in the order of
    the lines that give them. *)
Definition module_codes : list string :=
  [ "MINIKIT_NOT_INSTALLED"; "NO_WALLET_ADDRESS"; "WALLET_ADDRESS_ERROR";
    "WORLD_SIGN_ERROR"; "TCW_SESSION_INIT_ERROR"; "TCW_NOT_INITIALIZED";
    "INVALID_ADDRESS"; "NOT_BROWSER_ENVIRONMENT"; "SIWE_GENERATION_ERROR";
    "AUTH_FLOW_ERROR" ].

(** The number of events of a class in a history. *)
Definition count_events (class : Event -> bool) (h : History) : nat :=
  List.length (filter class h).

Definition is_session_layer_event (e : Event) : bool :=
  match e with
  | EvGenerateSiweMessage _ _ => true
  | _ => false
  end.

(** The test of line 184:
    [typeof crypto !== "undefined" && crypto.randomUUID]. *)
Definition has_randomUUID (w : World) : bool :=
  match crypto w with
  | Some {| randomUUID := Some _ |} => true
  | _ => false
  end.

(** The clock stays where [new Date(Date.now() + 24 h)] and
    [new Date(Date.now() - 1 min)] are valid dates. *)
Definition clock_in_range (w : World) : Prop :=
  forall h,
    JsDate.validTime (Date_now w h + 86400000) = true
    /\ JsDate.validTime (Date_now w h - 60000) = true.

(** Where a run of the pipeline can have stopped when it throws an error
    of a given code: the stage traces of [pipeline_traces] that end there. *)
Definition stopping_points (code : string) : list History :=
  let t0 := [] in
  let t1 := [EvCall StGetWalletAddress; EvRejected StGetWalletAddress] in
  let t2 := [EvCall StGetWalletAddress; EvFulfilled StGetWalletAddress;
             EvCall StGenerateSiweWithTCW; EvRejected StGenerateSiweWithTCW] in
  let tr := [EvCall StGetWalletAddress; EvFulfilled StGetWalletAddress;
             EvCall StGenerateSiweWithTCW; EvFulfilled StGenerateSiweWithTCW] in
  let t3 := tr ++ [EvCall StSignSiweWithWorld; EvRejected StSignSiweWithWorld] in
  let t4 := tr ++ [EvCall StSignSiweWithWorld; EvFulfilled StSignSiweWithWorld;
                   EvCall StInitializeTCWSession;
                   EvRejected StInitializeTCWSession] in
  if String.eqb code "NOT_BROWSER_ENVIRONMENT" then [t0]
  else if String.eqb code "NO_WALLET_ADDRESS" then [t1]
  else if String.eqb code "WALLET_ADDRESS_ERROR" then [t1]
  else if String.eqb code "MINIKIT_NOT_INSTALLED" then [t1; t3]
  else if String.eqb code "TCW_NOT_INITIALIZED" then [t2]
  else if String.eqb code "INVALID_ADDRESS" then [t2]
  else if String.eqb code "SIWE_GENERATION_ERROR" then [t2]
  else if String.eqb code "AUTH_FLOW_ERROR" then [tr]
  else if String.eqb code "WORLD_SIGN_ERROR" then [t3]
  else if String.eqb code "TCW_SESSION_INIT_ERROR" then [t4]
  else [].

(** ** The component [TinyCloudAuth] *)

(** [type User] of the component, lines 271-275. *)
Record AppUser : Type := {
  app_walletAddress : option string;
  app_username : option string;
  app_profilePictureUrl : option string
}.

(** The five [useState] cells of lines 278-282.  The cell [tcw] holds
    [null] ([TcwFalsy]) until the SDK is there. *)
Record ComponentState : Type := {
  st_user : option AppUser;
  st_loading : bool;
  st_error : option string;
  st_tcw : TinyCloudWeb;
  st_tcwSession : option TCWAuthSession
}.

(** The state at the first render. *)
Definition initial_state : ComponentState :=
  {| st_user := None; st_loading := false; st_error := None;
     st_tcw := TcwFalsy; st_tcwSession := None |}.

Definition setUser (st : ComponentState) (v : option AppUser) : ComponentState :=
  {| st_user := v; st_loading := st_loading st; st_error := st_error st;
     st_tcw := st_tcw st; st_tcwSession := st_tcwSession st |}.

Definition setLoading (st : ComponentState) (v : bool) : ComponentState :=
  {| st_user := st_user st; st_loading := v; st_error := st_error st;
     st_tcw := st_tcw st; st_tcwSession := st_tcwSession st |}.

Definition setError (st : ComponentState) (v : option string) : ComponentState :=
  {| st_user := st_user st; st_loading := st_loading st; st_error := v;
     st_tcw := st_tcw st; st_tcwSession := st_tcwSession st |}.

Definition setTcw (st : ComponentState) (v : TinyCloudWeb) : ComponentState :=
  {| st_user := st_user st; st_loading := st_loading st; st_error := st_error st;
     st_tcw := v; st_tcwSession := st_tcwSession st |}.

Definition setTcwSession (st : ComponentState) (v : option TCWAuthSession)
  : ComponentState :=
  {| st_user := st_user st; st_loading := st_loading st; st_error := st_error st;
     st_tcw := st_tcw st; st_tcwSession := v |}.

(** [initTCW], lines 286-298, run by the effect of the first render.
    [sdk] is what [import("@tinycloudlabs/web-sdk")] followed by
    [new TinyCloudWeb({})] comes to: an instance, with or without a
    [generateSiweMessage] method, or an exception.  [console.error] is
    recorded as a console event, like [console.log]. *)
Definition initTCW
    (sdk : Outcome
             (option (History -> string -> SiweMessageConfig ->
                      Outcome SimpleSiweMessage)))
    (st : ComponentState) (h : History) : ComponentState * History :=
  match sdk with
  | Ok method => (setTcw st (TcwInstance method), h)
  | Throw _ =>
      (setError st (Some "Failed to initialize TinyCloud Web SDK"),
       h ++ [EvConsoleLog "Failed to initialize TinyCloud Web SDK:"])
  end.

(** [handleTinyCloudAuth], lines 303-339: the state once the promise of
    the handler has settled, the setters applied in the order of the
    calls. *)
Definition handleTinyCloudAuth (st : ComponentState) (w : World) (h : History)
  : ComponentState * History :=
  if tcw_falsy (st_tcw st) then
    (setError st (Some "TinyCloud Web SDK not initialized"), h)
  else
    let st1 := setError (setLoading st true) None in
    match performTCWWorldAuth (st_tcw st) w h with
    | (Ok authSession, h') =>
        let st2 := setTcwSession st1 (Some authSession) in
        let st3 :=
          setUser st2
            (Some {| app_walletAddress := Some (session_address authSession);
                     app_username := None;
                     app_profilePictureUrl := None |}) in
        (setLoading st3 false,
         h' ++ [EvConsoleLog "TinyCloud authentication successful:"])
    | (Throw error, h') =>
        let st2 :=
          if instanceof_TCWAuthError error
          then setError st1
                 (Some (String.append "Authentication failed: "
                          (error_message error)))
          else setError st1 (Some "Authentication failed. Please try again.") in
        (setLoading st2 false,
         h' ++ [EvConsoleLog "TinyCloud authentication failed:"])
    end.

(** [handleSignOut], lines 341-345. *)
Definition handleSignOut (st : ComponentState) : ComponentState :=
  setError (setTcwSession (setUser st None) None) None.

(** [s.slice(-n)]: the last [n] code units, the whole string when it is
    shorter. *)
Definition slice_last (s : string) (n : nat) : string :=
  String.substring (String.length s - n) n s.

(** Line 382: the first six and the last four code units around three
    dots. *)
Definition short_address (a : string) : string :=
  String.append (JsString.slice a 0 6)
    (String.append "..." (slice_last a 4)).

(** [x] when it is a truthy string. *)
Definition truthy_string (x : option string) : option string :=
  match x with
  | Some s => if JsString.falsy s then None else Some s
  | None => None
  end.

(** Lines 381-383:
    [user?.username || (user?.walletAddress ? ... : 'No Address')]. *)
Definition display_name (u : AppUser) : string :=
  match truthy_string (app_username u) with
  | Some name => name
  | None =>
      match truthy_string (app_walletAddress u) with
      | Some a => short_address a
      | None => "No Address"
      end
  end.

(** Line 391: the first ten code units of the signature and three dots. *)
Definition signature_preview (session : TCWAuthSession) : string :=
  String.append (JsString.slice (session_signature session) 0 10) "...".

(** Lines 361-366. *)
Definition button_label (st : ComponentState) : string :=
  if st_loading st then "Connecting..."
  else if tcw_falsy (st_tcw st) then "Initializing..."
  else "Sign in with TinyCloud".

(** Line 358: [disabled={loading || !tcw}]. *)
Definition button_disabled (st : ComponentState) : bool :=
  st_loading st || tcw_falsy (st_tcw st).

(** What the component renders, lines 347-407: the error line when
    [error] is truthy, then either the sign-in button or the connected
    panel with its sign-out button. *)
Inductive View : Type :=
| SignInView (error : option string) (label : string) (disabled : bool)
| ConnectedView (error : option string) (picture : option string)
    (name : string) (session_line : option string).

Definition render (st : ComponentState) : View :=
  match st_user st with
  | None =>
      SignInView (truthy_string (st_error st)) (button_label st)
        (button_disabled st)
  | Some u =>
      ConnectedView (truthy_string (st_error st))
        (truthy_string (app_profilePictureUrl u))
        (display_name u)
        (match st_tcwSession st with
         | Some session => Some (signature_preview session)
         | None => None
         end)
  end.

(** Signed out and at rest: no user, no session, no error, not loading. *)
Definition signed_out (st : ComponentState) : Prop :=
  st_user st = None /\ st_tcwSession st = None /\ st_error st = None
  /\ st_loading st = false.

(** A world that differs from [sample_world] by having no
    [crypto.randomUUID]. *)
Definition world_without_randomUUID : World :=
  {| window := Some sample_window;
     crypto := Some {| randomUUID := None |};
     Date_now := fun _ => 1700000000000%Z;
     Math_random := fun _ => "0.4fzyo82mvyr";
     MiniKit := sample_minikit (Ok (SuccessPayload "0xsig")) |}.

(** A browser like [sample_world] whose MiniKit answers the installation
    test with [installed], has the user [u], and answers every signing
    request with [answer]. *)
Definition minikit_world (installed : Outcome bool) (u : option User)
    (answer : Outcome FinalPayload) : World :=
  {| window := Some sample_window;
     crypto :=
       Some {| randomUUID := Some (fun _ => "123e4567-e89b-12d3-a456-426614174000") |};
     Date_now := fun _ => 1700000000000%Z;
     Math_random := fun _ => "0.4fzyo82mvyr";
     MiniKit := {| isInstalled := fun _ => installed;
                   user := fun _ => u;
                   walletAuth := fun _ _ => answer |} |}.

(** The sample browser with its clock at the last instant a [Date] can
    hold. *)
Definition last_instant_world : World :=
  {| window := Some sample_window;
     crypto :=
       Some {| randomUUID := Some (fun _ => "123e4567-e89b-12d3-a456-426614174000") |};
     Date_now := fun _ => JsDate.maxTime;
     Math_random := fun _ => "0.4fzyo82mvyr";
     MiniKit := sample_minikit (Ok (SuccessPayload "0xsig")) |}.

(** * Properties *)

(** ** The date rendering against known instants *)

Example toISOString_epoch :
  JsDate.toISOString 0 = Ok "1970-01-01T00:00:00.000Z".
Proof. reflexivity. Qed.

Example toISOString_2023 :
  JsDate.toISOString 1700000000000 = Ok "2023-11-14T22:13:20.000Z".
Proof. reflexivity. Qed.

Example toISOString_leap_day :
  JsDate.toISOString 951827696789 = Ok "2000-02-29T12:34:56.789Z".
Proof. reflexivity. Qed.

Example toISOString_before_epoch :
  JsDate.toISOString (-1) = Ok "1969-12-31T23:59:59.999Z".
Proof. reflexivity. Qed.

Example toISOString_last_instant :
  JsDate.toISOString 8640000000000000 = Ok "+275760-09-13T00:00:00.000Z".
Proof. reflexivity. Qed.

Example toISOString_first_instant :
  JsDate.toISOString (-8640000000000000) = Ok "-271821-04-20T00:00:00.000Z".
Proof. reflexivity. Qed.

Example toISOString_invalid :
  JsDate.toISOString 8640000000000001 = Throw RangeError_invalid_time.
Proof. reflexivity. Qed.

(** ** Proof tools *)

(** Unfolds the monad and the calls that leave the module, leaving the
    oracles and the tests of the code to be decided case by case. *)
Ltac unfold_js :=
  cbv beta iota delta
    [stage try_catch bind ret throw throw_if ask emit read lift rethrow_or_wrap
     console_log MiniKit_isInstalled MiniKit_user MiniKit_walletAuth
     Date_now_call crypto_randomUUID call_prepareMessage
     tcw_generateSiweMessage randomId instanceof_TCWAuthError negb
     TypeError_not_a_function ReferenceError_not_defined].

(** Histories are compared as one list appended to the initial one. *)
Ltac norm_history :=
  repeat first [rewrite <- app_assoc | progress (cbn [app])].

(** ** The address check of the code *)

Lemma invalid_address_true_iff (a : string) :
  invalid_address a = true <->
  a = "" \/ JsString.startsWith a "0x" = false \/ String.length a <> 42.
Proof.
  unfold invalid_address.
  rewrite !orb_true_iff, !negb_true_iff, Nat.eqb_neq.
  split.
  - intros [[H | H] | H]; auto.
    left. destruct a; [reflexivity | discriminate].
  - intros [H | [H | H]]; auto.
    subst a. left. left. reflexivity.
Qed.

(** The format of the specification is stricter than the check of the code. *)
Lemma spec_address_format_accepted (a : string) :
  spec_address_format a = true -> invalid_address a = false.
Proof.
  unfold spec_address_format, invalid_address.
  rewrite !andb_true_iff. intros [[Hp Hl] _].
  rewrite Hp, Hl. destruct a; [discriminate | reflexivity].
Qed.

(** ** Precondition gates *)

(** C7.  [performTCWWorldAuth] tests the execution context before anything
    else: when [window] is undefined it throws the classified error
    [NOT_BROWSER_ENVIRONMENT] and leaves the history as it found it, so
    that none of [getWalletAddress], [generateSiweWithTCW],
    [signSiweWithWorld] and [initializeTCWSession] is called. *)
Theorem performTCWWorldAuth_requires_window (tcw : TinyCloudWeb) (w : World)
    (h : History) :
  window w = None ->
  performTCWWorldAuth tcw w h =
    (Throw (TCWAuthError
              "TCW + World authentication can only be performed in browser environment"
              "NOT_BROWSER_ENVIRONMENT" None), h)
  /\ forall s, invoked s (snd (performTCWWorldAuth tcw w h)) -> invoked s h.
Proof.
  intros Hwin.
  assert (Hrun : performTCWWorldAuth tcw w h =
    (Throw (TCWAuthError
              "TCW + World authentication can only be performed in browser environment"
              "NOT_BROWSER_ENVIRONMENT" None), h)).
  { unfold performTCWWorldAuth. unfold_js. rewrite Hwin. reflexivity. }
  split; [exact Hrun |].
  intros s. rewrite Hrun. cbn [snd]. trivial.
Qed.

Lemma performTCWWorldAuth_requires_window_witness :
  performTCWWorldAuth sample_tcw server_world [] =
    (Throw (TCWAuthError
              "TCW + World authentication can only be performed in browser environment"
              "NOT_BROWSER_ENVIRONMENT" None), []).
Proof.
  exact (proj1 (performTCWWorldAuth_requires_window sample_tcw server_world []
                  eq_refl)).
Defined.

(** C6, as the code has it.  [generateSiweWithTCW] tests its preconditions
    in a fixed order and the first one violated decides the error: a
    falsy [tcw] gives [TCW_NOT_INITIALIZED] whatever the address and the
    window; with a [tcw], an address that is empty, does not start with
    ["0x"] or has not 42 code units gives [INVALID_ADDRESS] whatever the
    window; with a [tcw] and an address that is not empty, starts with
    ["0x"] and has 42 code units, whatever its other characters, a
    missing window gives [NOT_BROWSER_ENVIRONMENT].  In the three cases
    the promise is rejected before any call leaves the module. *)
Theorem generateSiweWithTCW_precondition_order (tcw : TinyCloudWeb) (a : string)
    (w : World) (h : History) :
  (tcw_falsy tcw = true ->
   generateSiweWithTCW tcw a w h =
     (Throw (TCWAuthError "TCW instance is not available" "TCW_NOT_INITIALIZED" None),
      h ++ [EvCall StGenerateSiweWithTCW; EvRejected StGenerateSiweWithTCW]))
  /\ (tcw_falsy tcw = false ->
      a = "" \/ JsString.startsWith a "0x" = false \/ String.length a <> 42 ->
      generateSiweWithTCW tcw a w h =
        (Throw (TCWAuthError "Invalid Ethereum address format" "INVALID_ADDRESS" None),
         h ++ [EvCall StGenerateSiweWithTCW; EvRejected StGenerateSiweWithTCW]))
  /\ (tcw_falsy tcw = false ->
      a <> "" -> JsString.startsWith a "0x" = true -> String.length a = 42 ->
      window w = None ->
      generateSiweWithTCW tcw a w h =
        (Throw (TCWAuthError
                  "TCW authentication must be called in browser environment"
                  "NOT_BROWSER_ENVIRONMENT" None),
         h ++ [EvCall StGenerateSiweWithTCW; EvRejected StGenerateSiweWithTCW])).
Proof.
  repeat split.
  - intros Htcw. unfold generateSiweWithTCW. unfold_js.
    rewrite Htcw. unfold_js. norm_history. reflexivity.
  - intros Htcw Haddr. apply invalid_address_true_iff in Haddr.
    unfold generateSiweWithTCW. unfold_js.
    rewrite Htcw, Haddr. unfold_js. norm_history. reflexivity.
  - intros Htcw Hne Hprefix Hlen Hwin.
    assert (Haddr : invalid_address a = false).
    { unfold invalid_address. rewrite Hprefix, Hlen.
      destruct a; [contradiction | reflexivity]. }
    unfold generateSiweWithTCW. unfold_js.
    rewrite Htcw, Haddr, Hwin. unfold_js. norm_history. reflexivity.
Qed.

(** A null session context with a malformed address outside a browser:
    the missing context wins; with a context, the address wins; with a
    context and an address that passes the test, the window decides. *)
Lemma generateSiweWithTCW_precondition_order_witness :
  generateSiweWithTCW TcwFalsy "not-an-address" server_world [] =
    (Throw (TCWAuthError "TCW instance is not available" "TCW_NOT_INITIALIZED" None),
     [EvCall StGenerateSiweWithTCW; EvRejected StGenerateSiweWithTCW])
  /\ generateSiweWithTCW sample_tcw "not-an-address" server_world [] =
       (Throw (TCWAuthError "Invalid Ethereum address format" "INVALID_ADDRESS" None),
        [EvCall StGenerateSiweWithTCW; EvRejected StGenerateSiweWithTCW])
  /\ generateSiweWithTCW sample_tcw sample_address server_world [] =
       (Throw (TCWAuthError
                 "TCW authentication must be called in browser environment"
                 "NOT_BROWSER_ENVIRONMENT" None),
        [EvCall StGenerateSiweWithTCW; EvRejected StGenerateSiweWithTCW]).
Proof.
  split; [| split].
  - exact (proj1 (generateSiweWithTCW_precondition_order
                    TcwFalsy "not-an-address" server_world []) eq_refl).
  - refine (proj1 (proj2 (generateSiweWithTCW_precondition_order
                            sample_tcw "not-an-address" server_world []))
              eq_refl _).
    right. left. reflexivity.
  - refine (proj2 (proj2 (generateSiweWithTCW_precondition_order
                            sample_tcw sample_address server_world []))
              eq_refl _ eq_refl eq_refl eq_refl).
    discriminate.
Defined.

(** C6, as the specification has it, fails: with a session context and no
    window, an address that has the prefix and the length but no
    hexadecimal digit violates the address format of the specification,
    and yet the error is the one of the third precondition,
    [NOT_BROWSER_ENVIRONMENT], not [INVALID_ADDRESS]. *)
Lemma generateSiweWithTCW_window_decides_for_non_hex_address :
  spec_address_format non_hex_address = false
  /\ tcw_falsy sample_tcw = false
  /\ window server_world = None
  /\ generateSiweWithTCW sample_tcw non_hex_address server_world [] =
       (Throw (TCWAuthError
                 "TCW authentication must be called in browser environment"
                 "NOT_BROWSER_ENVIRONMENT" None),
        [EvCall StGenerateSiweWithTCW; EvRejected StGenerateSiweWithTCW]).
Proof. repeat split. Qed.

(** ** The catch clauses *)

Lemma rethrow_or_wrap_classified {A} (message code : string) (m c : string)
    (cause : option JsError) (w : World) (h : History) :
  @rethrow_or_wrap A message code (TCWAuthError m c cause) w h =
    (Throw (TCWAuthError m c cause), h).
Proof. reflexivity. Qed.

Lemma rethrow_or_wrap_foreign {A} (message code : string) (name text : string)
    (w : World) (h : History) :
  @rethrow_or_wrap A message code (ForeignError name text) w h =
    (Throw (TCWAuthError message code (Some (ForeignError name text))), h).
Proof. reflexivity. Qed.

(** A body under the catch clause of the four functions that have the
    [instanceof] test lets a classified error through unchanged. *)
Lemma try_catch_rethrow_classified {A} (body : M A) (message code : string)
    (w : World) (h h' : History) (e : JsError) :
  body w h = (Throw e, h') ->
  instanceof_TCWAuthError e = true ->
  try_catch body (rethrow_or_wrap message code) w h = (Throw e, h').
Proof.
  intros Hbody He. unfold try_catch. rewrite Hbody.
  unfold rethrow_or_wrap. rewrite He. reflexivity.
Qed.

(** ** Address validation *)

(** C3, as the code has it.  With a session context, an address that is
    empty, does not start with ["0x"] or is not 42 characters long makes
    [generateSiweWithTCW] throw the classified error [INVALID_ADDRESS],
    and the promise is rejected before any call leaves the module: the
    session layer's [generateSiweMessage] is not called.  (The characters
    after the prefix are not looked at.) *)
Theorem generateSiweWithTCW_rejects_malformed_address (tcw : TinyCloudWeb)
    (a : string) (w : World) (h : History) :
  tcw_falsy tcw = false ->
  a = "" \/ JsString.startsWith a "0x" = false \/ String.length a <> 42 ->
  generateSiweWithTCW tcw a w h =
    (Throw (TCWAuthError "Invalid Ethereum address format" "INVALID_ADDRESS" None),
     h ++ [EvCall StGenerateSiweWithTCW; EvRejected StGenerateSiweWithTCW])
  /\ forall a' config,
       In (EvGenerateSiweMessage a' config) (snd (generateSiweWithTCW tcw a w h)) ->
       In (EvGenerateSiweMessage a' config) h.
Proof.
  intros Htcw Hbad.
  apply invalid_address_true_iff in Hbad.
  assert (Hrun : generateSiweWithTCW tcw a w h =
    (Throw (TCWAuthError "Invalid Ethereum address format" "INVALID_ADDRESS" None),
     h ++ [EvCall StGenerateSiweWithTCW; EvRejected StGenerateSiweWithTCW])).
  { unfold generateSiweWithTCW. unfold_js.
    rewrite Htcw, Hbad. unfold_js. norm_history. reflexivity. }
  split; [exact Hrun |].
  intros a' config. rewrite Hrun. cbn [snd]. rewrite in_app_iff.
  intros [Hin | [Hin | [Hin | []]]]; [exact Hin | discriminate | discriminate].
Qed.

(** The empty string, a wrong prefix and a wrong length. *)
Lemma generateSiweWithTCW_rejects_malformed_address_witness :
  let w := sample_world (Ok (SuccessPayload "0xsig")) in
  let rejected :=
    (Throw (TCWAuthError "Invalid Ethereum address format" "INVALID_ADDRESS" None),
     [EvCall StGenerateSiweWithTCW; EvRejected StGenerateSiweWithTCW]) in
  generateSiweWithTCW sample_tcw "" w [] = rejected
  /\ generateSiweWithTCW sample_tcw "1xAbC123000000000000000000000000000000dEaD" w []
     = rejected
  /\ generateSiweWithTCW sample_tcw "0xAbC123" w [] = rejected.
Proof.
  cbv zeta. split; [| split].
  - apply (generateSiweWithTCW_rejects_malformed_address sample_tcw "");
      [reflexivity | left; reflexivity].
  - apply (generateSiweWithTCW_rejects_malformed_address sample_tcw
             "1xAbC123000000000000000000000000000000dEaD");
      [reflexivity | right; left; reflexivity].
  - apply (generateSiweWithTCW_rejects_malformed_address sample_tcw "0xAbC123");
      [reflexivity | right; right; simpl; lia].
Defined.

(** C3, as the specification has it, fails: an address with the right
    prefix and the right length whose other characters are no hexadecimal
    digits does not have the required format, yet it passes the check and
    reaches the session layer, whose message is returned. *)
Lemma generateSiweWithTCW_accepts_non_hex_address :
  spec_address_format non_hex_address = false
  /\ JsString.startsWith non_hex_address "0x" = true
  /\ String.length non_hex_address = 42
  /\ tcw_falsy sample_tcw = false
  /\ generateSiweWithTCW sample_tcw non_hex_address
       (sample_world (Ok (SuccessPayload "0xsig"))) [] =
     (Ok (sample_message "T" non_hex_address),
      [EvCall StGenerateSiweWithTCW; EvRandomUUID; EvDateNow; EvDateNow;
       EvGenerateSiweMessage non_hex_address
         {| cfg_statement := "Sign in to World Mini App with TinyCloud";
            cfg_domain := "app.example";
            cfg_uri := "https://app.example";
            cfg_version := "1";
            cfg_chainId := 1%Z;
            cfg_expirationTime := "2023-11-15T22:13:20.000Z";
            cfg_notBefore := "2023-11-14T22:12:20.000Z" |};
       EvFulfilled StGenerateSiweWithTCW]).
Proof. repeat split. Qed.

(** ** The placeholder session *)

(** C10.  When the rendering of the message returns normally,
    [initializeTCWSession] succeeds whatever the session context, the
    message and the signature: the catch clause is not entered, the only
    calls that leave the module are a clock read and the rendering, the
    placeholder handle has [initialized] true and the address of the
    message, and the session context plays no part in the result. *)
Theorem initializeTCWSession_placeholder_succeeds (tcw : TinyCloudWeb)
    (siweMessage : SimpleSiweMessage) (sig : string) (w : World) (h : History)
    (text : string) :
  prepareMessage siweMessage (h ++ [EvCall StInitializeTCWSession; EvDateNow])
    = Ok text ->
  initializeTCWSession tcw siweMessage sig w h =
    (Ok {| session_address := address siweMessage;
           session_signature := sig;
           session_message := text;
           tcwSession :=
             {| ps_initialized := true;
                ps_address := address siweMessage;
                ps_timestamp := Date_now w (h ++ [EvCall StInitializeTCWSession]) |} |},
     h ++ [EvCall StInitializeTCWSession; EvDateNow; EvPrepareMessage;
           EvFulfilled StInitializeTCWSession])
  /\ forall tcw',
       initializeTCWSession tcw' siweMessage sig w h =
       initializeTCWSession tcw siweMessage sig w h.
Proof.
  intros Hrender. split; [| reflexivity].
  unfold initializeTCWSession. unfold_js. norm_history.
  rewrite Hrender. norm_history. reflexivity.
Qed.

Lemma initializeTCWSession_placeholder_succeeds_witness :
  initializeTCWSession TcwFalsy (sample_message "T" sample_address) "0xsig"
    server_world [] =
    (Ok {| session_address := sample_address;
           session_signature := "0xsig";
           session_message := "T";
           tcwSession :=
             {| ps_initialized := true;
                ps_address := sample_address;
                ps_timestamp := 1700000000000%Z |} |},
     [EvCall StInitializeTCWSession; EvDateNow; EvPrepareMessage;
      EvFulfilled StInitializeTCWSession]).
Proof.
  exact (proj1 (initializeTCWSession_placeholder_succeeds TcwFalsy
                  (sample_message "T" sample_address) "0xsig" server_world [] "T"
                  eq_refl)).
Defined.

(** What [initializeTCWSession] does in general: it reads the clock, asks
    for the rendering, and wraps whatever the rendering throws. *)
Lemma initializeTCWSession_run (tcw : TinyCloudWeb)
    (siweMessage : SimpleSiweMessage) (sig : string) (w : World) (h : History) :
  initializeTCWSession tcw siweMessage sig w h =
    (match prepareMessage siweMessage
             (h ++ [EvCall StInitializeTCWSession; EvDateNow]) with
     | Ok text =>
         Ok {| session_address := address siweMessage;
               session_signature := sig;
               session_message := text;
               tcwSession :=
                 {| ps_initialized := true;
                    ps_address := address siweMessage;
                    ps_timestamp :=
                      Date_now w (h ++ [EvCall StInitializeTCWSession]) |} |}
     | Throw error =>
         Throw (TCWAuthError "Failed to initialize TCW session"
                  "TCW_SESSION_INIT_ERROR" (Some error))
     end,
     h ++ [EvCall StInitializeTCWSession; EvDateNow; EvPrepareMessage;
           settled StInitializeTCWSession
             (prepareMessage siweMessage
                (h ++ [EvCall StInitializeTCWSession; EvDateNow]))]).
Proof.
  unfold initializeTCWSession. unfold_js. norm_history.
  destruct (prepareMessage siweMessage _); norm_history; reflexivity.
Qed.

(** C5, at the input where it fails.  A message whose rendering throws a
    [TCWAuthError] of code [INVALID_MESSAGE]: [initializeTCWSession] does
    not surface that error but a new one, of code [TCW_SESSION_INIT_ERROR]
    and with its own message, that keeps the original as its cause; and
    when this happens at the fourth stage of the pipeline,
    [performTCWWorldAuth] surfaces the new error too. *)
Lemma initializeTCWSession_rewraps_classified_error :
  fst (initializeTCWSession sample_tcw (failing_message sample_address) "0xsig"
         (sample_world (Ok (SuccessPayload "0xsig"))) []) =
    Throw (TCWAuthError "Failed to initialize TCW session" "TCW_SESSION_INIT_ERROR"
             (Some (TCWAuthError "Invalid message" "INVALID_MESSAGE" None)))
  /\ fst (performTCWWorldAuth flaky_tcw
            (sample_world (Ok (SuccessPayload "0xsig"))) []) =
       Throw (TCWAuthError "Failed to initialize TCW session" "TCW_SESSION_INIT_ERROR"
                (Some (TCWAuthError "Invalid message" "INVALID_MESSAGE" None))).
Proof. split; reflexivity. Qed.

(** The same error thrown by the session layer inside
    [generateSiweWithTCW], whose catch clause has the [instanceof] test,
    comes out as it is, from the stage and from the pipeline. *)
Example generateSiweWithTCW_keeps_classified_error :
  fst (generateSiweWithTCW throwing_tcw sample_address
         (sample_world (Ok (SuccessPayload "0xsig"))) []) =
    Throw (TCWAuthError "Invalid message" "INVALID_MESSAGE" None)
  /\ fst (performTCWWorldAuth throwing_tcw
            (sample_world (Ok (SuccessPayload "0xsig"))) []) =
       Throw (TCWAuthError "Invalid message" "INVALID_MESSAGE" None).
Proof. split; reflexivity. Qed.

(** ** The failures of signing *)

(** C4, as the code has it.  For [signSiweWithWorld]: when MiniKit is not
    installed the error has the code [MINIKIT_NOT_INSTALLED]; when the
    wallet answers the request with an error status the error has the
    code [WORLD_SIGN_ERROR], the message "Failed to sign message with
    World" and no cause; when the wallet call or the installation test
    throws a foreign exception the error has the same code
    [WORLD_SIGN_ERROR], with the message "Failed to sign SIWE message with
    World" and the exception as its cause.  The first code differs from
    the other two, which are one code; the messages of these two differ. *)
Theorem signSiweWithWorld_classification (message : string) (w : World)
    (h : History) :
  let at_test := h ++ [EvCall StSignSiweWithWorld] in
  let at_wallet :=
    h ++ [EvCall StSignSiweWithWorld; EvIsInstalled; EvRandomUUID; EvDateNow;
          EvDateNow] in
  (isInstalled (MiniKit w) at_test = Ok false ->
   fst (signSiweWithWorld message w h) =
     Throw (TCWAuthError "MiniKit is not installed" "MINIKIT_NOT_INSTALLED" None))
  /\ (forall name text,
        isInstalled (MiniKit w) at_test = Throw (ForeignError name text) ->
        fst (signSiweWithWorld message w h) =
          Throw (TCWAuthError "Failed to sign SIWE message with World"
                   "WORLD_SIGN_ERROR" (Some (ForeignError name text))))
  /\ (forall c uuid,
        isInstalled (MiniKit w) at_test = Ok true ->
        crypto w = Some c -> randomUUID c = Some uuid ->
        (forall finalPayload,
           (forall input, walletAuth (MiniKit w) at_wallet input = Ok finalPayload) ->
           status finalPayload = "error" ->
           fst (signSiweWithWorld message w h) =
             Throw (TCWAuthError "Failed to sign message with World"
                      "WORLD_SIGN_ERROR" None))
        /\ (forall name text,
              (forall input,
                 walletAuth (MiniKit w) at_wallet input =
                   Throw (ForeignError name text)) ->
              fst (signSiweWithWorld message w h) =
                Throw (TCWAuthError "Failed to sign SIWE message with World"
                         "WORLD_SIGN_ERROR" (Some (ForeignError name text)))))
  /\ error_code (TCWAuthError "MiniKit is not installed" "MINIKIT_NOT_INSTALLED" None)
     <> error_code (TCWAuthError "Failed to sign message with World"
                      "WORLD_SIGN_ERROR" None)
  /\ (forall cause,
        error_code (TCWAuthError "Failed to sign message with World"
                      "WORLD_SIGN_ERROR" None)
        = error_code (TCWAuthError "Failed to sign SIWE message with World"
                        "WORLD_SIGN_ERROR" cause)
        /\ error_message (TCWAuthError "Failed to sign message with World"
                            "WORLD_SIGN_ERROR" None)
           <> error_message (TCWAuthError "Failed to sign SIWE message with World"
                               "WORLD_SIGN_ERROR" cause)).
Proof.
  cbv zeta. split; [| split; [| split; [| split]]].
  - intros Hinst. unfold signSiweWithWorld. unfold_js.
    rewrite Hinst. unfold_js. reflexivity.
  - intros name text Hinst. unfold signSiweWithWorld. unfold_js.
    rewrite Hinst. unfold_js. reflexivity.
  - intros c uuid Hinst Hcrypto Huuid. split.
    + intros finalPayload Hwallet Hstatus.
      unfold signSiweWithWorld. unfold_js.
      rewrite Hinst. unfold_js. rewrite Hcrypto, Huuid. unfold_js.
      norm_history. rewrite Hwallet.
      destruct finalPayload; [discriminate Hstatus | reflexivity].
    + intros name text Hwallet.
      unfold signSiweWithWorld. unfold_js.
      rewrite Hinst. unfold_js. rewrite Hcrypto, Huuid. unfold_js.
      norm_history. rewrite Hwallet. reflexivity.
  - discriminate.
  - intros cause. split; [reflexivity | discriminate].
Qed.

(** A wallet that is installed and refuses the request, and one whose
    call throws. *)
Lemma signSiweWithWorld_classification_witness :
  fst (signSiweWithWorld "T" (sample_world (Ok (ErrorPayload "user_rejected"))) []) =
    Throw (TCWAuthError "Failed to sign message with World" "WORLD_SIGN_ERROR" None)
  /\ fst (signSiweWithWorld "T"
            (sample_world (Throw (ForeignError "Error" "command timed out"))) []) =
       Throw (TCWAuthError "Failed to sign SIWE message with World" "WORLD_SIGN_ERROR"
                (Some (ForeignError "Error" "command timed out"))).
Proof.
  split.
  - refine (proj1 (proj1 (proj2 (proj2 (signSiweWithWorld_classification "T"
              (sample_world (Ok (ErrorPayload "user_rejected"))) [])))
              _ _ eq_refl eq_refl eq_refl) (ErrorPayload "user_rejected") _ eq_refl).
    intros input. reflexivity.
  - refine (proj2 (proj1 (proj2 (proj2 (signSiweWithWorld_classification "T"
              (sample_world (Throw (ForeignError "Error" "command timed out"))) [])))
              _ _ eq_refl eq_refl eq_refl) "Error" "command timed out" _).
    intros input. reflexivity.
Defined.

(** C4, as the specification has it, fails: the error for an explicit
    error status and the error for an unexpected exception during signing
    carry the same code. *)
Lemma signSiweWithWorld_rejected_and_failure_share_code :
  exists e_status e_exception,
    fst (signSiweWithWorld "T"
           (sample_world (Ok (ErrorPayload "user_rejected"))) []) = Throw e_status
    /\ fst (signSiweWithWorld "T"
              (sample_world (Throw (ForeignError "Error" "command timed out"))) [])
       = Throw e_exception
    /\ error_code e_status = Some "WORLD_SIGN_ERROR"
    /\ error_code e_exception = Some "WORLD_SIGN_ERROR".
Proof.
  eexists. eexists.
  split; [reflexivity |].
  split; [reflexivity |].
  split; reflexivity.
Qed.

(** ** The configuration sent to the session layer *)

(** C8.  With a session layer that has [generateSiweMessage], an address
    the check accepts, a window, and a clock that reads [t] during the
    call, the session layer is called once, with the address and a
    configuration made of the fixed statement, the host and the origin of
    the window, version ["1"], chain id 1, the ISO rendering of [t] plus
    24 hours as expiration time and of [t] minus one minute as not-before
    time; a message it returns is returned as it is. *)
Theorem generateSiweWithTCW_configuration
    (generate : History -> string -> SiweMessageConfig -> Outcome SimpleSiweMessage)
    (a : string) (w : World) (h : History) (win : Window) (t : Z)
    (expiration notbefore : string) :
  invalid_address a = false ->
  window w = Some win ->
  (forall h', Date_now w h' = t) ->
  JsDate.toISOString (t + 86400000) = Ok expiration ->
  JsDate.toISOString (t - 60000) = Ok notbefore ->
  let config :=
    {| cfg_statement := "Sign in to World Mini App with TinyCloud";
       cfg_domain := location_host win;
       cfg_uri := location_origin win;
       cfg_version := "1";
       cfg_chainId := 1%Z;
       cfg_expirationTime := expiration;
       cfg_notBefore := notbefore |} in
  exists before,
    (forall a' config', ~ In (EvGenerateSiweMessage a' config') before)
    /\ snd (generateSiweWithTCW (TcwInstance (Some generate)) a w h) =
         h ++ before ++
         [EvGenerateSiweMessage a config;
          settled StGenerateSiweWithTCW (generate (h ++ before) a config)]
    /\ forall siweMessage,
         generate (h ++ before) a config = Ok siweMessage ->
         fst (generateSiweWithTCW (TcwInstance (Some generate)) a w h) =
           Ok siweMessage.
Proof.
  intros Haddr Hwin Hclock Hexp Hnb config.
  assert (Hnot : forall (src : Event) a' config',
            src = EvRandomUUID \/ src = EvMathRandom ->
            ~ In (EvGenerateSiweMessage a' config')
                [EvCall StGenerateSiweWithTCW; src; EvDateNow; EvDateNow]).
  { intros src a' config' Hsrc [Hin | [Hin | [Hin | [Hin | []]]]];
      try discriminate.
    destruct Hsrc; subst src; discriminate. }
  unfold generateSiweWithTCW. cbn [tcw_falsy]. unfold_js.
  rewrite Haddr, Hwin. unfold_js.
  destruct (crypto w) as [[[uuid |]] |]; unfold_js;
    [exists [EvCall StGenerateSiweWithTCW; EvRandomUUID; EvDateNow; EvDateNow]
    |exists [EvCall StGenerateSiweWithTCW; EvMathRandom; EvDateNow; EvDateNow]
    |exists [EvCall StGenerateSiweWithTCW; EvMathRandom; EvDateNow; EvDateNow]];
    (split; [intros; apply Hnot; auto |]);
    rewrite !Hclock;
    change (24 * 60 * 60 * 1000)%Z with 86400000%Z;
    change (60 * 1000)%Z with 60000%Z;
    rewrite Hexp; unfold_js; rewrite Hnb; unfold_js;
    norm_history; fold config;
    (destruct (generate _ a config) as [m | e]; unfold_js; norm_history;
     [split; [reflexivity | intros m' Hm; injection Hm as <-; reflexivity]
     |split; [destruct e; unfold_js; norm_history; reflexivity
             |intros m' Hm; discriminate]]).
Qed.

(** At 2023-11-14T22:13:20Z the message expires a day later and is valid
    from a minute before. *)
Lemma generateSiweWithTCW_configuration_witness :
  let run :=
    generateSiweWithTCW sample_tcw sample_address
      (sample_world (Ok (SuccessPayload "0xsig"))) [] in
  fst run = Ok (sample_message "T" sample_address)
  /\ In (EvGenerateSiweMessage sample_address
           {| cfg_statement := "Sign in to World Mini App with TinyCloud";
              cfg_domain := "app.example";
              cfg_uri := "https://app.example";
              cfg_version := "1";
              cfg_chainId := 1%Z;
              cfg_expirationTime := "2023-11-15T22:13:20.000Z";
              cfg_notBefore := "2023-11-14T22:12:20.000Z" |})
        (snd run).
Proof.
  cbv zeta.
  destruct (generateSiweWithTCW_configuration
              (fun _ a _ => Ok (sample_message "T" a)) sample_address
              (sample_world (Ok (SuccessPayload "0xsig"))) [] sample_window
              1700000000000%Z "2023-11-15T22:13:20.000Z" "2023-11-14T22:12:20.000Z"
              eq_refl eq_refl (fun _ => eq_refl) eq_refl eq_refl)
    as (before & _ & Hhistory & Hresult).
  split.
  - apply Hresult. reflexivity.
  - unfold sample_tcw. rewrite Hhistory.
    rewrite !in_app_iff. right. right. left. reflexivity.
Defined.

(** C9.  The correlation token has no influence on [generateSiweWithTCW]:
    with other values coming out of [crypto.randomUUID] and [Math.random],
    and the same session context, address, window, clock and history,
    the outcome is the same and so is the history, hence the configuration
    handed to the session layer. *)
Theorem generateSiweWithTCW_ignores_random_token (tcw : TinyCloudWeb) (a : string)
    (w : World) (h : History) (uuid rnd : History -> string) :
  generateSiweWithTCW tcw a (with_random_values w uuid rnd) h =
  generateSiweWithTCW tcw a w h.
Proof.
  unfold generateSiweWithTCW, with_random_values. unfold_js.
  cbn [window crypto Date_now Math_random MiniKit randomUUID].
  destruct tcw as [| [generate |]]; cbn [tcw_falsy]; [reflexivity | |];
    (destruct (invalid_address a); [reflexivity |]);
    (destruct (window w) as [win |]; [| reflexivity]);
    destruct (crypto w) as [[[uuid0 |]] |]; reflexivity.
Qed.

(** The token itself does follow the random source. *)
Example randomId_follows_source :
  fst (randomId (sample_world (Ok (SuccessPayload "0xsig"))) []) = Ok "123e4567"
  /\ fst (randomId
            (with_random_values (sample_world (Ok (SuccessPayload "0xsig")))
               (fun _ => "9b2d1c0a-0000-4000-8000-000000000000")
               (fun _ => "0.zzzzzzzzzzz")) [])
     = Ok "9b2d1c0a".
Proof. split; reflexivity. Qed.

(** ** The orchestrator, run by run *)

Lemma rethrow_or_wrap_surfaced {A} (message code : string) (e : JsError)
    (w : World) (h : History) :
  @rethrow_or_wrap A message code e w h = (Throw (surfaced message code e), h).
Proof.
  unfold rethrow_or_wrap, surfaced, throw.
  destruct (instanceof_TCWAuthError e); reflexivity.
Qed.

Lemma surfaced_classified (message code : string) (e : JsError) :
  instanceof_TCWAuthError e = true -> surfaced message code e = e.
Proof. unfold surfaced. intros ->. reflexivity. Qed.

Lemma surfaced_is_classified (message code : string) (e : JsError) :
  instanceof_TCWAuthError (surfaced message code e) = true.
Proof. unfold surfaced. destruct e; reflexivity. Qed.

(** Every run of [performTCWWorldAuth] is one of the seven. *)
Lemma performTCWWorldAuth_run (tcw : TinyCloudWeb) (w : World) (h : History) :
  pipeline_run tcw w h (performTCWWorldAuth tcw w h).
Proof.
  unfold performTCWWorldAuth, try_catch, bind, read, throw_if, console_log, emit,
    call_prepareMessage, ask, ret, throw.
  destruct (window w) as [win |] eqn:Hwin.
  2:{ rewrite rethrow_or_wrap_surfaced. now apply run_no_window. }
  destruct (getWalletAddress w _) as [[a | e] h1] eqn:H1.
  2:{ rewrite rethrow_or_wrap_surfaced. eapply run_address_failed; eauto. }
  destruct (generateSiweWithTCW tcw a w _) as [[m | e] h2] eqn:H2.
  2:{ rewrite rethrow_or_wrap_surfaced. eapply run_generation_failed; eauto. }
  destruct (prepareMessage m _) as [text | e] eqn:Hr.
  2:{ rewrite rethrow_or_wrap_surfaced. norm_history.
      eapply run_rendering_failed; eauto. }
  destruct (signSiweWithWorld text w _) as [[r | e] h3] eqn:H3.
  2:{ rewrite rethrow_or_wrap_surfaced.
      eapply run_signing_failed; eauto.
      revert H3. norm_history. intros H3; exact H3. }
  destruct (initializeTCWSession tcw m (signature r) w _) as [[s | e] h4] eqn:H4.
  2:{ rewrite rethrow_or_wrap_surfaced.
      eapply run_initialization_failed; eauto.
      revert H3. norm_history. intros H3; exact H3. }
  eapply run_completed; eauto.
  revert H3. norm_history. intros H3; exact H3.
Qed.

(** ** Silence *)


Section Silence.

Variable class : Event -> bool.

Lemma silent_ret {A} (a : A) : silent class (ret a).
Proof. intros w h. exists []. split; [symmetry; apply app_nil_r | reflexivity]. Qed.

Lemma silent_throw {A} (e : JsError) : silent class (@throw A e).
Proof. intros w h. exists []. split; [symmetry; apply app_nil_r | reflexivity]. Qed.

Lemma silent_read {A} (field : World -> A) : silent class (read field).
Proof. intros w h. exists []. split; [symmetry; apply app_nil_r | reflexivity]. Qed.

Lemma silent_lift {A} (o : Outcome A) : silent class (lift o).
Proof. intros w h. exists []. split; [symmetry; apply app_nil_r | reflexivity]. Qed.

Lemma silent_MiniKit_user : silent class MiniKit_user.
Proof. intros w h. exists []. split; [symmetry; apply app_nil_r | reflexivity]. Qed.

Lemma silent_ask {A} (oracle : World -> History -> Outcome A) (ev : Event) :
  class ev = false -> silent class (ask oracle ev).
Proof.
  intros Hev w h. exists [ev]. split; [reflexivity |].
  cbn [filter]. rewrite Hev. reflexivity.
Qed.

Lemma silent_emit (ev : Event) : class ev = false -> silent class (emit ev).
Proof.
  intros Hev w h. exists [ev]. split; [reflexivity |].
  cbn [filter]. rewrite Hev. reflexivity.
Qed.

Lemma silent_bind {A B} (m : M A) (k : A -> M B) :
  silent class m -> (forall a, silent class (k a)) -> silent class (bind m k).
Proof.
  intros Hm Hk w h. unfold bind.
  destruct (Hm w h) as (tr1 & H1 & F1).
  destruct (m w h) as [[a | e] h1]; cbn [snd] in H1; subst h1.
  - destruct (Hk a w (h ++ tr1)) as (tr2 & H2 & F2).
    exists (tr1 ++ tr2). rewrite H2, app_assoc, filter_app, F1, F2. auto.
  - exists tr1. auto.
Qed.

Lemma silent_try_catch {A} (body : M A) (handler : JsError -> M A) :
  silent class body -> (forall e, silent class (handler e)) ->
  silent class (try_catch body handler).
Proof.
  intros Hm Hk w h. unfold try_catch.
  destruct (Hm w h) as (tr1 & H1 & F1).
  destruct (body w h) as [[a | e] h1]; cbn [snd] in H1; subst h1.
  - exists tr1. auto.
  - destruct (Hk e w (h ++ tr1)) as (tr2 & H2 & F2).
    exists (tr1 ++ tr2). rewrite H2, app_assoc, filter_app, F1, F2. auto.
Qed.

Lemma silent_throw_if (c : bool) (e : JsError) : silent class (throw_if c e).
Proof.
  intros w h. exists []. unfold throw_if.
  destruct c; (split; [symmetry; apply app_nil_r | reflexivity]).
Qed.

Lemma silent_rethrow_or_wrap {A} (message code : string) (e : JsError) :
  silent class (@rethrow_or_wrap A message code e).
Proof.
  intros w h. exists []. rewrite rethrow_or_wrap_surfaced.
  split; [symmetry; apply app_nil_r | reflexivity].
Qed.

Lemma silent_stage {A} (s : Stage) (body : M A) :
  class (EvCall s) = false -> class (EvFulfilled s) = false ->
  class (EvRejected s) = false ->
  silent class body -> silent class (stage s body).
Proof.
  intros Hc Hf Hr Hbody w h. unfold stage.
  destruct (Hbody w (h ++ [EvCall s])) as (tr & H1 & F1).
  destruct (body w (h ++ [EvCall s])) as [[a | e] h1]; cbn [snd] in H1; subst h1.
  - exists (EvCall s :: tr ++ [EvFulfilled s]). split.
    + cbn [snd]. norm_history. reflexivity.
    + cbn [filter]. rewrite Hc, filter_app, F1. cbn [filter app]. now rewrite Hf.
  - exists (EvCall s :: tr ++ [EvRejected s]). split.
    + cbn [snd]. norm_history. reflexivity.
    + cbn [filter]. rewrite Hc, filter_app, F1. cbn [filter app]. now rewrite Hr.
Qed.

End Silence.

(** Goes through a computation, combinator by combinator. *)
Ltac silence :=
  unfold quiet, MiniKit_isInstalled, MiniKit_walletAuth, Date_now_call,
    crypto_randomUUID, call_prepareMessage, tcw_generateSiweMessage, randomId,
    console_log;
  repeat first
    [ apply silent_bind; [| intros ?]
    | apply silent_try_catch; [| intros ?]
    | apply silent_stage; [reflexivity | reflexivity | reflexivity |]
    | apply silent_ret
    | apply silent_throw
    | apply silent_read
    | apply silent_lift
    | apply silent_MiniKit_user
    | apply silent_throw_if
    | apply silent_rethrow_or_wrap
    | apply silent_ask; reflexivity
    | apply silent_emit; reflexivity
    | match goal with
      | |- silent _ (match ?x with _ => _ end) => destruct x
      end
    | progress cbv zeta ].

(** A stage with a quiet body leaves its call and its settling. *)
Lemma stage_runs_as_stage {A} (s : Stage) (body : M A) :
  quiet body -> runs_as_stage s (stage s body).
Proof.
  intros Hbody w h. unfold stage.
  destruct (Hbody w (h ++ [EvCall s])) as (tr & H1 & F1).
  destruct (body w (h ++ [EvCall s])) as [[a | e] h1]; cbn [snd] in H1; subst h1.
  - exists (EvCall s :: tr ++ [EvFulfilled s]). split.
    + cbn [snd]. norm_history. reflexivity.
    + unfold stage_trace. cbn [filter is_stage_event].
      rewrite filter_app, F1. reflexivity.
  - exists (EvCall s :: tr ++ [EvRejected s]). split.
    + cbn [snd]. norm_history. reflexivity.
    + unfold stage_trace. cbn [filter is_stage_event].
      rewrite filter_app, F1. reflexivity.
Qed.

Lemma getWalletAddress_stage : runs_as_stage StGetWalletAddress getWalletAddress.
Proof. apply stage_runs_as_stage. silence. Qed.

Lemma generateSiweWithTCW_stage (tcw : TinyCloudWeb) (a : string) :
  runs_as_stage StGenerateSiweWithTCW (generateSiweWithTCW tcw a).
Proof. apply stage_runs_as_stage. silence. Qed.

Lemma signSiweWithWorld_stage (message : string) :
  runs_as_stage StSignSiweWithWorld (signSiweWithWorld message).
Proof. apply stage_runs_as_stage. silence. Qed.

Lemma initializeTCWSession_stage (tcw : TinyCloudWeb)
    (siweMessage : SimpleSiweMessage) (sig : string) :
  runs_as_stage StInitializeTCWSession (initializeTCWSession tcw siweMessage sig).
Proof. apply stage_runs_as_stage. silence. Qed.

(** Only signing reaches the wallet. *)
Lemma getWalletAddress_no_wallet : silent is_wallet_event getWalletAddress.
Proof. unfold getWalletAddress. silence. Qed.

Lemma generateSiweWithTCW_no_wallet (tcw : TinyCloudWeb) (a : string) :
  silent is_wallet_event (generateSiweWithTCW tcw a).
Proof. unfold generateSiweWithTCW. silence. Qed.

Lemma initializeTCWSession_no_wallet (tcw : TinyCloudWeb)
    (siweMessage : SimpleSiweMessage) (sig : string) :
  silent is_wallet_event (initializeTCWSession tcw siweMessage sig).
Proof. unfold initializeTCWSession. silence. Qed.

(** ** Signing and the wallet *)

(** [signSiweWithWorld] either stops before it reaches the wallet, and is
    rejected, or asks the wallet once, for the text it was given, and
    settles by the answer. *)
Lemma signSiweWithWorld_wallet (text : string) (w : World) (h : History) :
  (exists tr e,
      signSiweWithWorld text w h = (Throw e, h ++ tr)
      /\ filter is_wallet_event tr = [])
  \/ (exists before input r,
         filter is_wallet_event before = []
         /\ stage_trace before = [EvCall StSignSiweWithWorld]
         /\ signSiweWithWorld text w h =
              (r, h ++ before ++ [EvWalletAuth input; settled StSignSiweWithWorld r])
         /\ r = match walletAuth (MiniKit w) (h ++ before) input with
                | Ok (SuccessPayload sig) => Ok {| signature := sig |}
                | Ok (ErrorPayload _) =>
                    Throw (TCWAuthError "Failed to sign message with World"
                             "WORLD_SIGN_ERROR" None)
                | Throw e =>
                    Throw (surfaced "Failed to sign SIWE message with World"
                             "WORLD_SIGN_ERROR" e)
                end
         /\ wa_statement input = text).
Proof.
  unfold signSiweWithWorld. unfold_js.
  destruct (isInstalled (MiniKit w) _) as [[|] | e] eqn:Hinst; unfold_js.
  - destruct (crypto w) as [[[uuid |]] |]; cbn [randomUUID]; unfold_js.
    + right. norm_history.
      exists [EvCall StSignSiweWithWorld; EvIsInstalled; EvRandomUUID; EvDateNow;
              EvDateNow].
      match goal with
      | |- context [walletAuth (MiniKit w) ?hh ?ii] =>
          exists ii; destruct (walletAuth (MiniKit w) hh ii) as [[sig | code] | e]
      end;
        [exists (Ok {| signature := sig |})
        |exists (Throw (TCWAuthError "Failed to sign message with World"
                          "WORLD_SIGN_ERROR" None))
        |exists (Throw (surfaced "Failed to sign SIWE message with World"
                          "WORLD_SIGN_ERROR" e)); destruct e];
        unfold_js; norm_history; repeat split; reflexivity.
    + left. unfold_js. eexists. eexists. norm_history. split; reflexivity.
    + left. unfold_js. eexists. eexists. norm_history. split; reflexivity.
  - left. eexists. eexists. norm_history. split; reflexivity.
  - left. destruct e; unfold_js; eexists; eexists; norm_history; split; reflexivity.
Qed.


(** ** Observations on the stage trace *)





(** ** The trace of a run *)

(** Brings in what is known of a stage whose run is [H]: the events [tr]
    it added, their stage events, and that none is a wallet event. *)
Ltac silent_stage_facts H stage_lemma wallet_lemma tr Hh Ht Hw :=
  let tr' := fresh "tr" in
  let Hh' := fresh "Hh" in
  destruct stage_lemma as (tr & Hh & Ht);
  destruct wallet_lemma as (tr' & Hh' & Hw);
  rewrite H in Hh, Ht, Hh'; cbn [fst snd settled] in Hh, Ht, Hh';
  rewrite Hh in Hh'; apply app_inv_head in Hh'; subst tr'.

Ltac stage_facts H tr Hh Ht Hw :=
  lazymatch type of H with
  | getWalletAddress ?w ?hh = _ =>
      silent_stage_facts H (getWalletAddress_stage w hh)
        (getWalletAddress_no_wallet w hh) tr Hh Ht Hw
  | generateSiweWithTCW ?tcw ?a ?w ?hh = _ =>
      silent_stage_facts H (generateSiweWithTCW_stage tcw a w hh)
        (generateSiweWithTCW_no_wallet tcw a w hh) tr Hh Ht Hw
  | initializeTCWSession ?tcw ?m ?sig ?w ?hh = _ =>
      silent_stage_facts H (initializeTCWSession_stage tcw m sig w hh)
        (initializeTCWSession_no_wallet tcw m sig w hh) tr Hh Ht Hw
  | signSiweWithWorld ?text ?w ?hh = _ =>
      destruct (signSiweWithWorld_stage text w hh) as (tr & Hh & Ht);
      rewrite H in Hh, Ht; cbn [fst snd settled] in Hh, Ht
  end.






(** ** The outcome of a run and its stage trace *)




(** ** The order of the stages *)



(** ** The session and what it is made of *)

(** When [generateSiweWithTCW] is fulfilled, its message is the one the
    session layer answered with, for the address it was given. *)
Lemma generateSiweWithTCW_fulfilled (tcw : TinyCloudWeb) (a : string) (w : World)
    (h h' : History) (siweMessage : SimpleSiweMessage) :
  generateSiweWithTCW tcw a w h = (Ok siweMessage, h') ->
  exists generate before config,
    tcw = TcwInstance (Some generate)
    /\ generate (h ++ before) a config = Ok siweMessage
    /\ h' = h ++ before ++
            [EvGenerateSiweMessage a config; EvFulfilled StGenerateSiweWithTCW].
Proof.
  unfold generateSiweWithTCW. unfold_js.
  destruct tcw as [| [generate |]]; cbn [tcw_falsy]; [discriminate | |];
    (destruct (invalid_address a); [discriminate |]);
    (destruct (window w) as [win |]; [| discriminate]);
    destruct (crypto w) as [[[uuid |]] |]; unfold_js;
    (destruct (JsDate.toISOString _) as [expiration | e1];
     [| destruct e1; discriminate]);
    (destruct (JsDate.toISOString _) as [notbefore | e2];
     [| destruct e2; discriminate]);
    try discriminate;
    norm_history;
    match goal with
    | |- context [generate ?hh a ?cfg] =>
        destruct (generate hh a cfg) as [m | e] eqn:Hanswer;
        [| destruct e; discriminate];
        intros Hrun; injection Hrun as <- <-;
        exists generate;
        match hh with
        | h ++ ?before => exists before
        end;
        exists cfg; norm_history; auto
    end.
Qed.

(** When [signSiweWithWorld] is fulfilled, its signature is the one of the
    success payload the wallet answered with, for the text it was given. *)
Lemma signSiweWithWorld_fulfilled (text : string) (w : World) (h h' : History)
    (signResult : SignResult) :
  signSiweWithWorld text w h = (Ok signResult, h') ->
  exists before input,
    walletAuth (MiniKit w) (h ++ before) input
      = Ok (SuccessPayload (signature signResult))
    /\ wa_statement input = text
    /\ h' = h ++ before ++ [EvWalletAuth input; EvFulfilled StSignSiweWithWorld].
Proof.
  intros Hrun.
  destruct (signSiweWithWorld_wallet text w h)
    as [(tr & e & Hs & _) | (before & i & r & _ & _ & Hs & Hans & Htext)].
  { rewrite Hrun in Hs. discriminate Hs. }
  rewrite Hrun in Hs. injection Hs as <- ->.
  exists before, i.
  destruct (walletAuth (MiniKit w) _ i) as [[sig | code] | e];
    try discriminate Hans.
  injection Hans as ->. auto.
Qed.

(** C2.  A fulfilled [initializeTCWSession] returns a session whose address
    is the address of the message, whose signature is the signature it was
    given and whose message is what [prepareMessage] answered.  Hence, when
    [performTCWWorldAuth] is fulfilled, the address of the session is the
    address of the message the session layer returned, its signature is
    the one the wallet answered with for a request whose statement is a
    rendering of that message, and its message is a rendering of that
    message too; the two renderings are the same text when rendering is
    deterministic. *)
Theorem initializeTCWSession_binds_session :
  (forall tcw siweMessage sig w h session h',
      initializeTCWSession tcw siweMessage sig w h = (Ok session, h') ->
      session_address session = address siweMessage
      /\ session_signature session = sig
      /\ prepareMessage siweMessage (h ++ [EvCall StInitializeTCWSession; EvDateNow])
         = Ok (session_message session))
  /\ (forall tcw w h session h',
        performTCWWorldAuth tcw w h = (Ok session, h') ->
        exists generate hg a config siweMessage hw input,
          tcw = TcwInstance (Some generate)
          /\ generate hg a config = Ok siweMessage
          /\ In (EvGenerateSiweMessage a config) h'
          /\ session_address session = address siweMessage
          /\ walletAuth (MiniKit w) hw input
             = Ok (SuccessPayload (session_signature session))
          /\ In (EvWalletAuth input) h'
          /\ (exists hr, prepareMessage siweMessage hr = Ok (wa_statement input))
          /\ (exists hr, prepareMessage siweMessage hr = Ok (session_message session))
          /\ (deterministic_rendering siweMessage ->
              wa_statement input = session_message session)).
Proof.
  assert (Hinit : forall tcw siweMessage sig w h session h',
      initializeTCWSession tcw siweMessage sig w h = (Ok session, h') ->
      session_address session = address siweMessage
      /\ session_signature session = sig
      /\ prepareMessage siweMessage (h ++ [EvCall StInitializeTCWSession; EvDateNow])
         = Ok (session_message session)).
  { intros tcw m sig w h s h' Hrun.
    rewrite initializeTCWSession_run in Hrun.
    destruct (prepareMessage m _) as [text | e]; [| discriminate Hrun].
    injection Hrun as <- _. auto. }
  split; [exact Hinit |].
  intros tcw w h session h' Hrun.
  generalize (performTCWWorldAuth_run tcw w h). rewrite Hrun.
  inversion 1 as
    [ | | | |
    | | win a h1 m h2 text r h3 s h4 Hwin H1 H2 Hr H3 H4 Hs ]; subst.
  destruct (generateSiweWithTCW_fulfilled _ _ _ _ _ _ H2)
    as (generate & before2 & config & -> & Hgen & ->).
  destruct (signSiweWithWorld_fulfilled _ _ _ _ _ H3)
    as (before3 & input & Hwallet & Htext & ->).
  destruct (Hinit _ _ _ _ _ _ _ H4) as (Haddr & Hsig & Hmsg).
  assert (Hext : exists hs tr4, h4 = hs ++ tr4 /\ In (EvWalletAuth input) hs
                                /\ In (EvGenerateSiweMessage a config) hs).
  { match type of H4 with
    | initializeTCWSession ?t ?mm ?sg ?ww ?hh = _ =>
        destruct (initializeTCWSession_stage t mm sg ww hh) as (tr4 & Hh4 & _);
        rewrite H4 in Hh4; exists hh, tr4
    end.
    split; [exact Hh4 |].
    split; rewrite !in_app_iff; cbn [In]; tauto. }
  destruct Hext as (hs & tr4 & -> & Hin_wallet & Hin_generate).
  exists generate, ((h1 ++ [EvConsoleLog "Got wallet address:"]) ++ before2),
    a, config, m.
  eexists. exists input.
  split; [reflexivity |].
  split; [exact Hgen |].
  split; [rewrite !in_app_iff; tauto |].
  split; [exact Haddr |].
  split; [rewrite Hsig; exact Hwallet |].
  split; [rewrite !in_app_iff; tauto |].
  split; [eexists; rewrite Htext; exact Hr |].
  split; [eexists; exact Hmsg |].
  intros Hdet. rewrite Htext.
  assert (Hsame : Ok text = Ok (session_message session)).
  { rewrite <- Hr, <- Hmsg. apply Hdet. }
  injection Hsame as ->. reflexivity.
Qed.

(** A complete run: wallet installed, address present, the session layer
    renders its message as ["T"], the wallet signs with ["0xsig"]. *)
Lemma initializeTCWSession_binds_session_witness :
  let w := sample_world (Ok (SuccessPayload "0xsig")) in
  exists session h',
    performTCWWorldAuth sample_tcw w [] = (Ok session, h')
    /\ session_address session = sample_address
    /\ session_signature session = "0xsig"
    /\ session_message session = "T"
    /\ exists input,
         In (EvWalletAuth input) h'
         /\ wa_statement input = session_message session.
Proof.
  cbv zeta.
  destruct (performTCWWorldAuth sample_tcw (sample_world (Ok (SuccessPayload "0xsig"))) [])
    as [[session | e] h'] eqn:Hrun; [| discriminate Hrun].
  exists session, h'.
  destruct (proj2 initializeTCWSession_binds_session _ _ _ _ _ Hrun)
    as (generate & hg & a & config & m & hw & input
        & Htcw & Hgen & _ & _ & _ & Hin & _ & _ & Hsame).
  injection Htcw as <-. injection Hgen as <-.
  vm_compute in Hrun. injection Hrun as <- <-.
  repeat (split; [reflexivity |]).
  exists input. split; [exact Hin |].
  apply Hsame. intros h1 h2. reflexivity.
Defined.

(** ** Classified errors through the orchestrator *)

(** The orchestrator throws what [surfaced_by_flow] makes of the error
    that stopped the run, which is that error itself when it is a
    [TCWAuthError]: whatever [performTCWWorldAuth] throws is classified. *)
Lemma surfaced_by_flow_classified (e : JsError) :
  instanceof_TCWAuthError e = true -> surfaced_by_flow e = e.
Proof. apply surfaced_classified. Qed.

Lemma performTCWWorldAuth_failure_is_classified (tcw : TinyCloudWeb) (w : World)
    (h h' : History) (e : JsError) :
  performTCWWorldAuth tcw w h = (Throw e, h') -> instanceof_TCWAuthError e = true.
Proof.
  intros Hrun. generalize (performTCWWorldAuth_run tcw w h). rewrite Hrun.
  inversion 1; subst; try reflexivity; apply surfaced_is_classified.
Qed.

(** * Further properties of the module *)

(** ** [getWalletAddress] *)

Lemma truthy_walletAddress_some (u : option User) (a : string) :
  truthy_walletAddress u = Some a <->
  exists usr, u = Some usr /\ walletAddress usr = Some a /\ a <> "".
Proof.
  split.
  - destruct u as [[[a0 |]] |]; cbn; try discriminate.
    destruct a0; cbn; [discriminate |].
    intros Ha. injection Ha as <-. eexists. repeat split. discriminate.
  - intros (usr & -> & Hu & Ha). destruct usr as [wa]. cbn in Hu. subst wa.
    cbn. destruct a; [contradiction | reflexivity].
Qed.

(** X1.  [getWalletAddress] is fulfilled with [a] exactly when
    [MiniKit.isInstalled()] answers [true] and [MiniKit.user] has the
    wallet address [a], which is not the empty string; and whatever its
    outcome, the only call that leaves the module is the one call of
    [isInstalled]. *)
Theorem getWalletAddress_fulfilled_iff (w : World) (h : History) (a : string) :
  (fst (getWalletAddress w h) = Ok a <->
   isInstalled (MiniKit w) (h ++ [EvCall StGetWalletAddress]) = Ok true
   /\ exists usr,
        user (MiniKit w) (h ++ [EvCall StGetWalletAddress; EvIsInstalled])
          = Some usr
        /\ walletAddress usr = Some a /\ a <> "")
  /\ snd (getWalletAddress w h) =
       h ++ [EvCall StGetWalletAddress; EvIsInstalled;
             settled StGetWalletAddress (fst (getWalletAddress w h))].
Proof.
  rewrite <- truthy_walletAddress_some.
  unfold getWalletAddress. unfold_js. norm_history.
  destruct (isInstalled (MiniKit w) _) as [[|] | e]; unfold_js.
  - destruct (truthy_walletAddress _) as [a0 |]; unfold_js; norm_history.
    + split; [| reflexivity]. split.
      * intros Ha. injection Ha as <-. auto.
      * intros [_ Ha]. injection Ha as <-. reflexivity.
    + split; [| reflexivity]. split; [discriminate | intros [_ Ha]; discriminate].
  - norm_history. split; [| reflexivity].
    split; [discriminate | intros [Ha _]; discriminate].
  - destruct e; unfold_js; norm_history; (split; [| reflexivity]);
      (split; [discriminate | intros [Ha _]; discriminate]).
Qed.

(** X2.  The failures of [getWalletAddress]: MiniKit not installed gives
    [MINIKIT_NOT_INSTALLED]; MiniKit installed with no user, a user
    without wallet address or an empty wallet address gives
    [NO_WALLET_ADDRESS]; a foreign exception out of [isInstalled] gives
    [WALLET_ADDRESS_ERROR] with the exception as its cause. *)
Theorem getWalletAddress_failures (w : World) (h : History) :
  let at_test := h ++ [EvCall StGetWalletAddress] in
  let at_user := h ++ [EvCall StGetWalletAddress; EvIsInstalled] in
  (isInstalled (MiniKit w) at_test = Ok false ->
   fst (getWalletAddress w h) =
     Throw (TCWAuthError "MiniKit is not installed" "MINIKIT_NOT_INSTALLED" None))
  /\ (isInstalled (MiniKit w) at_test = Ok true ->
      user (MiniKit w) at_user = None
      \/ user (MiniKit w) at_user = Some {| walletAddress := None |}
      \/ user (MiniKit w) at_user = Some {| walletAddress := Some "" |} ->
      fst (getWalletAddress w h) =
        Throw (TCWAuthError "No wallet address available from MiniKit"
                 "NO_WALLET_ADDRESS" None))
  /\ (forall name text,
        isInstalled (MiniKit w) at_test = Throw (ForeignError name text) ->
        fst (getWalletAddress w h) =
          Throw (TCWAuthError "Failed to get wallet address" "WALLET_ADDRESS_ERROR"
                   (Some (ForeignError name text)))).
Proof.
  cbv zeta. split; [| split].
  - intros Hinst. unfold getWalletAddress. unfold_js.
    rewrite Hinst. unfold_js. reflexivity.
  - intros Hinst Huser. unfold getWalletAddress. unfold_js.
    rewrite Hinst. unfold_js. norm_history.
    destruct Huser as [-> | [-> | ->]]; reflexivity.
  - intros name text Hinst. unfold getWalletAddress. unfold_js.
    rewrite Hinst. unfold_js. reflexivity.
Qed.

(** MiniKit installed, with a user whose wallet address is the empty
    string; and MiniKit not installed. *)
Lemma getWalletAddress_failures_witness :
  fst (getWalletAddress
         (minikit_world (Ok true) (Some {| walletAddress := Some "" |})
            (Ok (SuccessPayload "0xsig"))) [])
    = Throw (TCWAuthError "No wallet address available from MiniKit"
               "NO_WALLET_ADDRESS" None)
  /\ fst (getWalletAddress
            (minikit_world (Ok false) None (Ok (SuccessPayload "0xsig"))) [])
     = Throw (TCWAuthError "MiniKit is not installed" "MINIKIT_NOT_INSTALLED" None).
Proof.
  split.
  - refine (proj1 (proj2 (getWalletAddress_failures
                            (minikit_world (Ok true)
                               (Some {| walletAddress := Some "" |})
                               (Ok (SuccessPayload "0xsig"))) []))
              eq_refl _).
    right. right. reflexivity.
  - exact (proj1 (getWalletAddress_failures
                    (minikit_world (Ok false) None (Ok (SuccessPayload "0xsig")))
                    []) eq_refl).
Defined.

(** ** [signSiweWithWorld] *)

(** X3.  [signSiweWithWorld] asks the wallet at most once, and only after
    [MiniKit.isInstalled()] has answered [true]; the request it sends has
    the request id ["tcw-auth"], the message as its statement, what
    [crypto.randomUUID()] answered as its nonce, and as expiration and
    not-before times the [Date] objects made from the first clock read
    plus 24 hours and from the second clock read minus one minute.  With
    a clock that stands at [t] and both instants in the range of [Date],
    these are the dates of [t] + 86 400 000 ms and [t] - 60 000 ms, that
    is a window of 24 hours and one minute; out of that range the request
    carries an Invalid Date. *)
Theorem signSiweWithWorld_request (message : string) (w : World) (h : History) :
  exists tr,
    snd (signSiweWithWorld message w h) = h ++ tr
    /\ count_events is_wallet_event tr <= 1
    /\ forall input,
         In (EvWalletAuth input) tr ->
         isInstalled (MiniKit w) (h ++ [EvCall StSignSiweWithWorld]) = Ok true
         /\ wa_requestId input = "tcw-auth"
         /\ wa_statement input = message
         /\ (exists c uuid,
               crypto w = Some c /\ randomUUID c = Some uuid
               /\ wa_nonce input =
                    uuid (h ++ [EvCall StSignSiweWithWorld; EvIsInstalled]))
         /\ wa_expirationTime input =
              JsDate.new_Date
                (Date_now w
                   (h ++ [EvCall StSignSiweWithWorld; EvIsInstalled; EvRandomUUID])
                 + 86400000)%Z
         /\ wa_notBefore input =
              JsDate.new_Date
                (Date_now w
                   (h ++ [EvCall StSignSiweWithWorld; EvIsInstalled; EvRandomUUID;
                          EvDateNow])
                 - 60000)%Z
         /\ (forall t, (forall h', Date_now w h' = t) ->
                       (JsDate.validTime (t + 86400000) = true ->
                        JsDate.validTime (t - 60000) = true ->
                        wa_expirationTime input = Some (t + 86400000)%Z
                        /\ wa_notBefore input = Some (t - 60000)%Z
                        /\ ((t + 86400000) - (t - 60000) = 86460000)%Z)
                       /\ (JsDate.validTime (t + 86400000) = false ->
                           wa_expirationTime input = None)
                       /\ (JsDate.validTime (t - 60000) = false ->
                           wa_notBefore input = None)).
Proof.
  unfold signSiweWithWorld. unfold_js.
  destruct (isInstalled (MiniKit w) _) as [[|] | e] eqn:Hinst; unfold_js.
  - destruct (crypto w) as [[[uuid |]] |] eqn:Hcrypto; cbn [randomUUID]; unfold_js.
    + norm_history.
      match goal with
      | |- context [walletAuth (MiniKit w) ?hh ?ii] =>
          destruct (walletAuth (MiniKit w) hh ii) as [[sig | code] | e];
          [| | destruct e]; unfold_js; norm_history;
          (eexists; split; [reflexivity |]; split; [cbv; lia |]);
          intros input [Hin | [Hin | [Hin | [Hin | [Hin | [Hin | [Hin | []]]]]]]];
          try discriminate Hin; injection Hin as <-;
          cbn [wa_requestId wa_statement wa_nonce wa_expirationTime wa_notBefore];
          change (24 * 60 * 60 * 1000)%Z with 86400000%Z;
          change (60 * 1000)%Z with 60000%Z;
          (split; [reflexivity |]); (split; [reflexivity |]);
          (split; [reflexivity |]);
          (split; [eexists; eexists; repeat split; reflexivity |]);
          (split; [reflexivity |]); (split; [reflexivity |]);
          intros t Ht; rewrite !Ht; unfold JsDate.new_Date;
          (split; [intros -> ->; repeat split; lia |]);
          (split; intros ->; reflexivity)
      end.
    + norm_history. eexists. split; [reflexivity |]. split; [cbv; lia |].
      intros input [Hin | [Hin | [Hin | []]]]; discriminate Hin.
    + norm_history. eexists. split; [reflexivity |]. split; [cbv; lia |].
      intros input [Hin | [Hin | [Hin | []]]]; discriminate Hin.
  - norm_history. eexists. split; [reflexivity |]. split; [cbv; lia |].
    intros input [Hin | [Hin | [Hin | []]]]; discriminate Hin.
  - destruct e; unfold_js; norm_history; eexists;
      (split; [reflexivity |]); (split; [cbv; lia |]);
      intros input [Hin | [Hin | [Hin | []]]]; discriminate Hin.
Qed.

(** The request of the sample world, at 2023-11-14T22:13:20Z, and the
    request of a world whose clock stands at the last instant of [Date]. *)
Lemma signSiweWithWorld_request_witness :
  In (EvWalletAuth
        {| wa_nonce := "123e4567-e89b-12d3-a456-426614174000";
           wa_requestId := "tcw-auth";
           wa_expirationTime := Some 1700086400000%Z;
           wa_notBefore := Some 1699999940000%Z;
           wa_statement := "T" |})
     (snd (signSiweWithWorld "T" (sample_world (Ok (SuccessPayload "0xsig"))) []))
  /\ In (EvWalletAuth
           {| wa_nonce := "123e4567-e89b-12d3-a456-426614174000";
              wa_requestId := "tcw-auth";
              wa_expirationTime := None;
              wa_notBefore := Some 8639999999940000%Z;
              wa_statement := "T" |})
        (snd (signSiweWithWorld "T" last_instant_world []))
  /\ forall input,
       In (EvWalletAuth input)
          (snd (signSiweWithWorld "T" last_instant_world [])) ->
       wa_expirationTime input = None
       /\ wa_notBefore input = Some 8639999999940000%Z.
Proof.
  split; [| split].
  - cbn. tauto.
  - cbn. tauto.
  - intros input Hin.
    destruct (signSiweWithWorld_request "T" last_instant_world [])
      as (tr & Hh & _ & Hrequest).
    cbn [app] in Hh. rewrite Hh in Hin.
    destruct (Hrequest input Hin) as (_ & _ & _ & _ & Hexp & Hnb & _).
    rewrite Hexp, Hnb. split; reflexivity.
Defined.

(** X4.  In a host without [crypto.randomUUID], [signSiweWithWorld] is
    never fulfilled and never reaches the wallet: line 82 calls
    [crypto.randomUUID()] with no fallback, and with MiniKit installed the
    error is [WORLD_SIGN_ERROR] around the exception of the engine.  Hence
    [performTCWWorldAuth] is never fulfilled in such a host, although
    [generateSiweWithTCW] has the fallback on [Math.random] at line 186. *)
Theorem signSiweWithWorld_needs_randomUUID (w : World) :
  has_randomUUID w = false ->
  (forall message h,
      exists e tr,
        signSiweWithWorld message w h = (Throw e, h ++ tr)
        /\ count_events is_wallet_event tr = 0
        /\ (isInstalled (MiniKit w) (h ++ [EvCall StSignSiweWithWorld]) = Ok true ->
            exists cause,
              e = TCWAuthError "Failed to sign SIWE message with World"
                    "WORLD_SIGN_ERROR" (Some cause)
              /\ instanceof_TCWAuthError cause = false))
  /\ (forall tcw h, exists e, fst (performTCWWorldAuth tcw w h) = Throw e).
Proof.
  intros Hno.
  assert (Hsign : forall message h,
      exists e tr,
        signSiweWithWorld message w h = (Throw e, h ++ tr)
        /\ count_events is_wallet_event tr = 0
        /\ (isInstalled (MiniKit w) (h ++ [EvCall StSignSiweWithWorld]) = Ok true ->
            exists cause,
              e = TCWAuthError "Failed to sign SIWE message with World"
                    "WORLD_SIGN_ERROR" (Some cause)
              /\ instanceof_TCWAuthError cause = false)).
  { intros message h. unfold has_randomUUID in Hno.
    unfold signSiweWithWorld. unfold_js.
    destruct (isInstalled (MiniKit w) _) as [[|] | e] eqn:Hinst; unfold_js.
    - destruct (crypto w) as [[[uuid |]] |]; [discriminate Hno | |];
        cbn [randomUUID]; unfold_js; norm_history;
        eexists; eexists; (split; [reflexivity |]); (split; [reflexivity |]);
        intros _; eexists; split; reflexivity.
    - norm_history. eexists. eexists. split; [reflexivity |].
      split; [reflexivity | discriminate].
    - destruct e; unfold_js; norm_history; eexists; eexists;
        (split; [reflexivity |]); (split; [reflexivity | discriminate]). }
  split; [exact Hsign |].
  intros tcw h.
  generalize (performTCWWorldAuth_run tcw w h).
  generalize (performTCWWorldAuth tcw w h) as run.
  intros run Hrun.
  destruct Hrun as
    [ Hwin
    | win e h1 Hwin H1
    | win a h1 e h2 Hwin H1 H2
    | win a h1 m h2 e Hwin H1 H2 Hr
    | win a h1 m h2 text e h3 Hwin H1 H2 Hr H3
    | win a h1 m h2 text r h3 e h4 Hwin H1 H2 Hr H3 H4
    | win a h1 m h2 text r h3 s h4 Hwin H1 H2 Hr H3 H4 ];
    try (eexists; reflexivity).
  destruct (Hsign text
              (h2 ++ [EvConsoleLog "Generated SIWE message:"; EvPrepareMessage]))
    as (e & tr & Hs & _).
  rewrite Hs in H3. discriminate H3.
Qed.

(** In a browser that has [crypto] but no [crypto.randomUUID], with
    MiniKit installed and a session layer that works, the message is
    generated and the pipeline still fails, at signing. *)
Lemma signSiweWithWorld_needs_randomUUID_witness :
  (exists siweMessage,
      fst (generateSiweWithTCW sample_tcw sample_address
             world_without_randomUUID []) = Ok siweMessage)
  /\ exists e,
       fst (performTCWWorldAuth sample_tcw world_without_randomUUID []) = Throw e
       /\ error_code e = Some "WORLD_SIGN_ERROR".
Proof.
  split; [eexists; reflexivity |].
  destruct (proj2 (signSiweWithWorld_needs_randomUUID world_without_randomUUID
                     eq_refl) sample_tcw []) as (e & He).
  exists e. split; [exact He |].
  vm_compute in He. injection He as <-. reflexivity.
Defined.

(** ** [generateSiweWithTCW] *)

Lemma invalid_address_false (a : string) :
  invalid_address a = false ->
  a <> "" /\ JsString.startsWith a "0x" = true /\ String.length a = 42.
Proof.
  unfold invalid_address.
  rewrite !orb_false_iff, !negb_false_iff, Nat.eqb_eq.
  intros [[Hf Hp] Hl]. repeat split; auto.
  intros ->. discriminate Hf.
Qed.

(** X5.  When [generateSiweWithTCW] is fulfilled, the address it was
    given is not empty, starts with ["0x"] and has 42 code units, there is
    a window, and the session layer has been asked exactly once, for that
    address, with a configuration that has the fixed statement, the host
    and origin of the window, version ["1"] and chain id 1; the message is
    the answer to that one call. *)
Theorem generateSiweWithTCW_fulfilled_preconditions (tcw : TinyCloudWeb)
    (a : string) (w : World) (h h' : History) (siweMessage : SimpleSiweMessage) :
  generateSiweWithTCW tcw a w h = (Ok siweMessage, h') ->
  a <> "" /\ JsString.startsWith a "0x" = true /\ String.length a = 42
  /\ exists win generate before config,
       window w = Some win
       /\ tcw = TcwInstance (Some generate)
       /\ h' = h ++ before ++
               [EvGenerateSiweMessage a config; EvFulfilled StGenerateSiweWithTCW]
       /\ count_events is_session_layer_event before = 0
       /\ generate (h ++ before) a config = Ok siweMessage
       /\ cfg_statement config = "Sign in to World Mini App with TinyCloud"
       /\ cfg_domain config = location_host win
       /\ cfg_uri config = location_origin win
       /\ cfg_version config = "1"
       /\ cfg_chainId config = 1%Z.
Proof.
  unfold generateSiweWithTCW. unfold_js.
  destruct tcw as [| [generate |]]; cbn [tcw_falsy]; [discriminate | |];
    (destruct (invalid_address a) eqn:Haddr; [discriminate |]);
    (destruct (window w) as [win |]; [| discriminate]);
    destruct (crypto w) as [[[uuid |]] |]; unfold_js;
    (destruct (JsDate.toISOString _) as [expiration | e1];
     [| destruct e1; discriminate]);
    (destruct (JsDate.toISOString _) as [notbefore | e2];
     [| destruct e2; discriminate]);
    try discriminate;
    norm_history;
    match goal with
    | |- context [generate ?hh a ?cfg] =>
        destruct (generate hh a cfg) as [m | e] eqn:Hanswer;
        [| destruct e; discriminate];
        intros Hrun; injection Hrun as <- <-;
        destruct (invalid_address_false _ Haddr) as (Hne & Hp & Hl);
        (split; [exact Hne |]); (split; [exact Hp |]); (split; [exact Hl |]);
        exists win, generate;
        match hh with
        | h ++ ?before => exists before
        end;
        exists cfg; norm_history; repeat split; auto
    end.
Qed.

(** The sample session layer, asked for the sample address. *)
Lemma generateSiweWithTCW_fulfilled_preconditions_witness :
  String.length sample_address = 42
  /\ exists config,
       In (EvGenerateSiweMessage sample_address config)
          (snd (generateSiweWithTCW sample_tcw sample_address
                  (sample_world (Ok (SuccessPayload "0xsig"))) []))
       /\ cfg_chainId config = 1%Z.
Proof.
  destruct (generateSiweWithTCW sample_tcw sample_address
              (sample_world (Ok (SuccessPayload "0xsig"))) [])
    as [[m | e] h'] eqn:Hrun; [| discriminate Hrun].
  destruct (generateSiweWithTCW_fulfilled_preconditions _ _ _ _ _ _ Hrun)
    as (_ & _ & Hl & win & generate & before & config
        & _ & _ & -> & _ & _ & _ & _ & _ & _ & Hchain).
  split; [exact Hl |].
  exists config. split; [| exact Hchain].
  cbn [snd]. rewrite !in_app_iff. right. right. left. reflexivity.
Defined.

(** X6.  With a session context, an accepted address, a window and a
    clock in the range of [Date]: a [tcw] without [generateSiweMessage]
    and a [generateSiweMessage] that throws a foreign exception both give
    [SIWE_GENERATION_ERROR], with the [TypeError] of the engine or the
    exception as the cause. *)
Theorem generateSiweWithTCW_wraps_session_layer_failure (tcw : TinyCloudWeb)
    (a : string) (w : World) (h : History) (win : Window) :
  invalid_address a = false ->
  window w = Some win ->
  clock_in_range w ->
  (tcw = TcwInstance None ->
   fst (generateSiweWithTCW tcw a w h) =
     Throw (TCWAuthError "Failed to generate SIWE message with TCW"
              "SIWE_GENERATION_ERROR"
              (Some (TypeError_not_a_function "tcw.generateSiweMessage"))))
  /\ (forall generate name text,
        tcw = TcwInstance (Some generate) ->
        (forall h' config, generate h' a config = Throw (ForeignError name text)) ->
        fst (generateSiweWithTCW tcw a w h) =
          Throw (TCWAuthError "Failed to generate SIWE message with TCW"
                   "SIWE_GENERATION_ERROR" (Some (ForeignError name text)))).
Proof.
  intros Haddr Hwin Hclock.
  assert (Hexp : forall h', JsDate.toISOString (Date_now w h' + 24 * 60 * 60 * 1000)
                            = Ok (JsDate.render (Date_now w h' + 86400000))).
  { intros h'. change (24 * 60 * 60 * 1000)%Z with 86400000%Z.
    unfold JsDate.toISOString. now rewrite (proj1 (Hclock h')). }
  assert (Hnb : forall h', JsDate.toISOString (Date_now w h' - 60 * 1000)
                           = Ok (JsDate.render (Date_now w h' - 60000))).
  { intros h'. change (60 * 1000)%Z with 60000%Z.
    unfold JsDate.toISOString. now rewrite (proj2 (Hclock h')). }
  split.
  - intros ->. unfold generateSiweWithTCW. cbn [tcw_falsy]. unfold_js.
    rewrite Haddr, Hwin. unfold_js.
    destruct (crypto w) as [[[uuid |]] |]; unfold_js;
      rewrite Hexp; unfold_js; rewrite Hnb; unfold_js; reflexivity.
  - intros generate name text -> Hthrows.
    unfold generateSiweWithTCW. cbn [tcw_falsy]. unfold_js.
    rewrite Haddr, Hwin. unfold_js.
    destruct (crypto w) as [[[uuid |]] |]; unfold_js;
      rewrite Hexp; unfold_js; rewrite Hnb; unfold_js;
      rewrite Hthrows; reflexivity.
Qed.

Lemma generateSiweWithTCW_wraps_session_layer_failure_witness :
  fst (generateSiweWithTCW (TcwInstance None) sample_address
         (sample_world (Ok (SuccessPayload "0xsig"))) []) =
    Throw (TCWAuthError "Failed to generate SIWE message with TCW"
             "SIWE_GENERATION_ERROR"
             (Some (ForeignError "TypeError"
                      "tcw.generateSiweMessage is not a function"))).
Proof.
  refine (proj1 (generateSiweWithTCW_wraps_session_layer_failure
                   (TcwInstance None) sample_address
                   (sample_world (Ok (SuccessPayload "0xsig"))) [] sample_window
                   eq_refl eq_refl _) eq_refl).
  intros h. split; reflexivity.
Defined.

(** ** What the five functions throw *)

Lemma stage_catch_classified {A} (s : Stage) (body : M A) (message code : string)
    (w : World) (h h' : History) (e : JsError) :
  stage s (try_catch body (rethrow_or_wrap message code)) w h = (Throw e, h') ->
  instanceof_TCWAuthError e = true.
Proof.
  unfold stage, try_catch.
  destruct (body w _) as [[a | e0] h0]; [discriminate |].
  rewrite rethrow_or_wrap_surfaced.
  intros Hrun. injection Hrun as <- _. apply surfaced_is_classified.
Qed.

(** X7.  Whatever one of the five exported functions throws is a
    [TCWAuthError]: no exception of MiniKit, of the session layer, of the
    message or of the engine leaves the module as it is. *)
Theorem exported_functions_reject_with_TCWAuthError :
  (forall w h e h',
      getWalletAddress w h = (Throw e, h') -> instanceof_TCWAuthError e = true)
  /\ (forall message w h e h',
        signSiweWithWorld message w h = (Throw e, h') ->
        instanceof_TCWAuthError e = true)
  /\ (forall tcw siweMessage sig w h e h',
        initializeTCWSession tcw siweMessage sig w h = (Throw e, h') ->
        instanceof_TCWAuthError e = true)
  /\ (forall tcw a w h e h',
        generateSiweWithTCW tcw a w h = (Throw e, h') ->
        instanceof_TCWAuthError e = true)
  /\ (forall tcw w h e h',
        performTCWWorldAuth tcw w h = (Throw e, h') ->
        instanceof_TCWAuthError e = true).
Proof.
  split; [| split; [| split; [| split]]].
  - intros w h e h'. apply stage_catch_classified.
  - intros message w h e h'. apply stage_catch_classified.
  - intros tcw m sig w h e h' Hrun. rewrite initializeTCWSession_run in Hrun.
    destruct (prepareMessage m _); [discriminate |].
    injection Hrun as <- _. reflexivity.
  - intros tcw a w h e h'. apply stage_catch_classified.
  - intros tcw w h e h'. apply performTCWWorldAuth_failure_is_classified.
Qed.

(** A wallet whose call throws, and a message whose rendering throws. *)
Lemma exported_functions_reject_with_TCWAuthError_witness :
  (exists e,
      fst (signSiweWithWorld "T"
             (sample_world (Throw (ForeignError "Error" "command timed out"))) [])
      = Throw e
      /\ instanceof_TCWAuthError e = true)
  /\ (exists e,
        fst (performTCWWorldAuth sample_tcw
               (sample_world (Throw (ForeignError "Error" "command timed out"))) [])
        = Throw e
        /\ instanceof_TCWAuthError e = true).
Proof.
  split.
  - destruct (signSiweWithWorld "T"
                (sample_world (Throw (ForeignError "Error" "command timed out"))) [])
      as [[r | e] h'] eqn:Hrun; [discriminate Hrun |].
    exists e. split; [reflexivity |].
    exact (proj1 (proj2 exported_functions_reject_with_TCWAuthError) _ _ _ _ _ Hrun).
  - destruct (performTCWWorldAuth sample_tcw
                (sample_world (Throw (ForeignError "Error" "command timed out"))) [])
      as [[r | e] h'] eqn:Hrun; [discriminate Hrun |].
    exists e. split; [reflexivity |].
    exact (proj2 (proj2 (proj2 (proj2 exported_functions_reject_with_TCWAuthError)))
             _ _ _ _ _ Hrun).
Defined.

(** ** Error codes and where the pipeline stopped *)

Lemma surfaced_foreign (message code : string) (e : JsError) :
  instanceof_TCWAuthError e = false ->
  surfaced message code e = TCWAuthError message code (Some e).
Proof. unfold surfaced. intros ->. reflexivity. Qed.

Lemma getWalletAddress_codes (w : World) (h h' : History) (e : JsError) :
  foreign_world w ->
  getWalletAddress w h = (Throw e, h') ->
  error_code e = Some "MINIKIT_NOT_INSTALLED"
  \/ error_code e = Some "NO_WALLET_ADDRESS"
  \/ error_code e = Some "WALLET_ADDRESS_ERROR".
Proof.
  intros [Hinst _]. unfold getWalletAddress. unfold_js.
  specialize (Hinst (h ++ [EvCall StGetWalletAddress])).
  destruct (isInstalled (MiniKit w) _) as [[|] | e0]; unfold_js.
  - destruct (truthy_walletAddress _); unfold_js; [discriminate |].
    intros Hrun. injection Hrun as <- _. auto.
  - intros Hrun. injection Hrun as <- _. auto.
  - cbn in Hinst. destruct e0; [discriminate Hinst |]. unfold_js.
    intros Hrun. injection Hrun as <- _. auto.
Qed.

Lemma signSiweWithWorld_codes (message : string) (w : World) (h h' : History)
    (e : JsError) :
  foreign_world w ->
  signSiweWithWorld message w h = (Throw e, h') ->
  error_code e = Some "MINIKIT_NOT_INSTALLED"
  \/ error_code e = Some "WORLD_SIGN_ERROR".
Proof.
  intros [Hinst Hwallet]. unfold signSiweWithWorld. unfold_js.
  specialize (Hinst (h ++ [EvCall StSignSiweWithWorld])).
  destruct (isInstalled (MiniKit w) _) as [[|] | e0]; unfold_js.
  - destruct (crypto w) as [[[uuid |]] |]; cbn [randomUUID]; unfold_js;
      try (intros Hrun; injection Hrun as <- _; auto).
    match goal with
    | |- context [walletAuth (MiniKit w) ?hh ?ii] =>
        specialize (Hwallet hh ii);
        destruct (walletAuth (MiniKit w) hh ii) as [[sig | code] | e1]
    end; unfold_js.
    + discriminate.
    + intros Hrun. injection Hrun as <- _. auto.
    + cbn in Hwallet. destruct e1; [discriminate Hwallet |]. unfold_js.
      intros Hrun. injection Hrun as <- _. auto.
  - intros Hrun. injection Hrun as <- _. auto.
  - cbn in Hinst. destruct e0; [discriminate Hinst |]. unfold_js.
    intros Hrun. injection Hrun as <- _. auto.
Qed.

Lemma toISOString_throws (v : Z) (e : JsError) :
  JsDate.toISOString v = Throw e -> e = ForeignError "RangeError" "Invalid time value".
Proof.
  unfold JsDate.toISOString. destruct (JsDate.validTime v); [discriminate |].
  intros He. injection He as <-. reflexivity.
Qed.

(** Case analysis on the next [toISOString] of the goal; when it throws,
    the goal is closed by [tac]. *)
Ltac next_toISOString tac :=
  match goal with
  | |- context [JsDate.toISOString ?v] =>
      let H := fresh "Hiso" in
      destruct (JsDate.toISOString v) as [? | ?] eqn:H;
      [| apply toISOString_throws in H; subst; unfold_js; tac]
  end.

Lemma generateSiweWithTCW_codes (tcw : TinyCloudWeb) (a : string) (w : World)
    (h h' : History) (e : JsError) (win : Window) :
  foreign_tcw tcw ->
  window w = Some win ->
  generateSiweWithTCW tcw a w h = (Throw e, h') ->
  error_code e = Some "TCW_NOT_INITIALIZED"
  \/ error_code e = Some "INVALID_ADDRESS"
  \/ error_code e = Some "SIWE_GENERATION_ERROR".
Proof.
  intros Hforeign Hwin. unfold generateSiweWithTCW. unfold_js. rewrite Hwin.
  destruct tcw as [| [generate |]]; cbn [tcw_falsy];
    [intros Hrun; injection Hrun as <- _; auto | |];
    (destruct (invalid_address a);
     [intros Hrun; injection Hrun as <- _; auto |]);
    destruct (crypto w) as [[[uuid |]] |]; unfold_js;
    next_toISOString ltac:(intros Hrun; injection Hrun as <- _; auto);
    next_toISOString ltac:(intros Hrun; injection Hrun as <- _; auto);
    try (intros Hrun; injection Hrun as <- _; auto);
    match goal with
    | |- context [generate ?hh a ?cfg] =>
        destruct (Hforeign hh a cfg) as [Hf _];
        destruct (generate hh a cfg) as [m | e0]; [discriminate |];
        cbn in Hf; destruct e0; [discriminate Hf |]; unfold_js;
        intros Hrun; injection Hrun as <- _; auto
    end.
Qed.

Lemma initializeTCWSession_code (tcw : TinyCloudWeb) (siweMessage : SimpleSiweMessage)
    (sig : string) (w : World) (h h' : History) (e : JsError) :
  initializeTCWSession tcw siweMessage sig w h = (Throw e, h') ->
  error_code e = Some "TCW_SESSION_INIT_ERROR".
Proof.
  rewrite initializeTCWSession_run.
  destruct (prepareMessage siweMessage _); [discriminate |].
  intros Hrun. injection Hrun as <- _. reflexivity.
Qed.

Lemma error_code_classified (e : JsError) (code : string) :
  error_code e = Some code -> instanceof_TCWAuthError e = true.
Proof. destruct e; [reflexivity | discriminate]. Qed.

(** X8.  When MiniKit, the session layer and the messages throw only
    errors of their own, an error of [performTCWWorldAuth] carries one of
    the ten codes of the module, and the code tells where the run stopped:
    [NOT_BROWSER_ENVIRONMENT] before the first stage; [NO_WALLET_ADDRESS]
    and [WALLET_ADDRESS_ERROR] at [getWalletAddress];
    [TCW_NOT_INITIALIZED], [INVALID_ADDRESS] and [SIWE_GENERATION_ERROR] at
    [generateSiweWithTCW]; [AUTH_FLOW_ERROR] at the rendering of the
    message between the second and the third stage; [WORLD_SIGN_ERROR] at
    [signSiweWithWorld]; [TCW_SESSION_INIT_ERROR] at
    [initializeTCWSession]; and [MINIKIT_NOT_INSTALLED] at
    [getWalletAddress] or at [signSiweWithWorld]. *)
Theorem performTCWWorldAuth_error_codes (tcw : TinyCloudWeb) (w : World)
    (h h' : History) (e : JsError) :
  foreign_world w ->
  foreign_tcw tcw ->
  performTCWWorldAuth tcw w h = (Throw e, h') ->
  exists code tr,
    error_code e = Some code
    /\ In code module_codes
    /\ h' = h ++ tr
    /\ In (stage_trace tr) (stopping_points code).
Proof.
  intros Hworld Htcw Hrun.
  assert (Hpass : forall e0 code,
            error_code e0 = Some code -> surfaced_by_flow e0 = e0).
  { intros e0 code He0. apply surfaced_by_flow_classified.
    exact (error_code_classified _ _ He0). }
  generalize (performTCWWorldAuth_run tcw w h). rewrite Hrun.
  inversion 1 as
    [ Hwin
    | win e1 h1 Hwin H1
    | win a h1 e1 h2 Hwin H1 H2
    | win a h1 m h2 e1 Hwin H1 H2 Hr
    | win a h1 m h2 text e1 h3 Hwin H1 H2 Hr H3
    | win a h1 m h2 text r h3 e1 h4 Hwin H1 H2 Hr H3 H4
    | ]; subst.
  - exists "NOT_BROWSER_ENVIRONMENT", [].
    split; [reflexivity |]. split; [cbv; tauto |].
    split; [symmetry; apply app_nil_r | left; reflexivity].
  - stage_facts H1 tr1 Hh1 Ht1 Hw1. subst h'.
    destruct (getWalletAddress_codes _ _ _ _ Hworld H1) as [Hc | [Hc | Hc]];
      rewrite (Hpass _ _ Hc);
      eexists; eexists; (split; [exact Hc |]); (split; [cbv; tauto |]);
      (split; [norm_history; reflexivity |]);
      unfold stage_trace in *; cbn [filter is_stage_event];
      rewrite Ht1; cbv; tauto.
  - stage_facts H1 tr1 Hh1 Ht1 Hw1. subst h1.
    stage_facts H2 tr2 Hh2 Ht2 Hw2. subst h'.
    destruct (generateSiweWithTCW_codes _ _ _ _ _ _ _ Htcw Hwin H2)
      as [Hc | [Hc | Hc]];
      rewrite (Hpass _ _ Hc);
      eexists; eexists; (split; [exact Hc |]); (split; [cbv; tauto |]);
      (split; [norm_history; reflexivity |]);
      unfold stage_trace in *;
      repeat (rewrite filter_app || cbn [filter is_stage_event app]);
      rewrite Ht1, Ht2; cbv; tauto.
  - stage_facts H1 tr1 Hh1 Ht1 Hw1. subst h1.
    stage_facts H2 tr2 Hh2 Ht2 Hw2. subst h2.
    destruct (generateSiweWithTCW_fulfilled _ _ _ _ _ _ H2)
      as (generate & before2 & config & -> & Hgen & _).
    cbn in Htcw.
    match type of Hgen with
    | generate ?hh ?aa ?cc = _ => destruct (Htcw hh aa cc) as [_ Hmsg]
    end.
    specialize (Hmsg _ Hgen). unfold foreign_message in Hmsg.
    match type of Hr with
    | prepareMessage m ?hh = _ => specialize (Hmsg hh)
    end.
    rewrite Hr in Hmsg. cbn in Hmsg.
    unfold surfaced_by_flow. rewrite (surfaced_foreign _ _ _ Hmsg).
    exists "AUTH_FLOW_ERROR". eexists.
    split; [reflexivity |]. split; [cbv; tauto |].
    split; [norm_history; reflexivity |].
    unfold stage_trace in *;
      repeat (rewrite filter_app || cbn [filter is_stage_event app]);
      rewrite Ht1, Ht2; cbv; tauto.
  - stage_facts H1 tr1 Hh1 Ht1 Hw1. subst h1.
    stage_facts H2 tr2 Hh2 Ht2 Hw2. subst h2.
    stage_facts H3 tr3 Hh3 Ht3 Hw3. subst h'.
    destruct (signSiweWithWorld_codes _ _ _ _ _ Hworld H3) as [Hc | Hc];
      rewrite (Hpass _ _ Hc);
      eexists; eexists; (split; [exact Hc |]); (split; [cbv; tauto |]);
      (split; [norm_history; reflexivity |]);
      unfold stage_trace in *;
      repeat (rewrite filter_app || cbn [filter is_stage_event app]);
      rewrite Ht1, Ht2, Ht3; cbv; tauto.
  - stage_facts H1 tr1 Hh1 Ht1 Hw1. subst h1.
    stage_facts H2 tr2 Hh2 Ht2 Hw2. subst h2.
    stage_facts H3 tr3 Hh3 Ht3 Hw3. subst h3.
    stage_facts H4 tr4 Hh4 Ht4 Hw4. subst h'.
    pose proof (initializeTCWSession_code _ _ _ _ _ _ _ H4) as Hc.
    rewrite (Hpass _ _ Hc).
    eexists; eexists; (split; [exact Hc |]); (split; [cbv; tauto |]);
      (split; [norm_history; reflexivity |]);
      unfold stage_trace in *;
      repeat (rewrite filter_app || cbn [filter is_stage_event app]);
      rewrite Ht1, Ht2, Ht3, Ht4; cbv; tauto.
Qed.

(** The wallet refuses the signing request. *)
Lemma performTCWWorldAuth_error_codes_witness :
  exists e h',
    performTCWWorldAuth sample_tcw
      (sample_world (Ok (ErrorPayload "user_rejected"))) [] = (Throw e, h')
    /\ error_code e = Some "WORLD_SIGN_ERROR"
    /\ In (stage_trace h') (stopping_points "WORLD_SIGN_ERROR").
Proof.
  destruct (performTCWWorldAuth sample_tcw
              (sample_world (Ok (ErrorPayload "user_rejected"))) [])
    as [[s | e] h'] eqn:Hrun; [discriminate Hrun |].
  exists e, h'. split; [reflexivity |].
  assert (Hworld : foreign_world (sample_world (Ok (ErrorPayload "user_rejected")))).
  { split; intros; exact I. }
  assert (Htcw : foreign_tcw sample_tcw).
  { intros h0 a config. split; [exact I |].
    intros m Hm. injection Hm as <-. intros h1. exact I. }
  destruct (performTCWWorldAuth_error_codes _ _ _ _ _ Hworld Htcw Hrun)
    as (code & tr & Hcode & _ & Hh & Hstop).
  cbn [app] in Hh. subst tr.
  vm_compute in Hrun. injection Hrun as <- _.
  injection Hcode as <-. split; [reflexivity | exact Hstop].
Defined.

(** ** The calls of a fulfilled run *)

Lemma getWalletAddress_fulfilled_history (w : World) (h h' : History) (a : string) :
  getWalletAddress w h = (Ok a, h') ->
  h' = h ++ [EvCall StGetWalletAddress; EvIsInstalled;
             EvFulfilled StGetWalletAddress]
  /\ truthy_walletAddress
       (user (MiniKit w) (h ++ [EvCall StGetWalletAddress; EvIsInstalled]))
     = Some a.
Proof.
  unfold getWalletAddress. unfold_js. norm_history.
  destruct (isInstalled (MiniKit w) _) as [[|] | e]; unfold_js;
    [| discriminate | destruct e; discriminate].
  destruct (truthy_walletAddress _) as [a0 |]; unfold_js; [| discriminate].
  norm_history. intros Hrun. injection Hrun as <- <-. auto.
Qed.

Lemma generateSiweWithTCW_fulfilled_history (tcw : TinyCloudWeb) (a : string)
    (w : World) (h h' : History) (siweMessage : SimpleSiweMessage) :
  generateSiweWithTCW tcw a w h = (Ok siweMessage, h') ->
  exists config,
    h' = h ++ [EvCall StGenerateSiweWithTCW;
               (if has_randomUUID w then EvRandomUUID else EvMathRandom);
               EvDateNow; EvDateNow; EvGenerateSiweMessage a config;
               EvFulfilled StGenerateSiweWithTCW].
Proof.
  unfold generateSiweWithTCW, has_randomUUID. unfold_js.
  destruct tcw as [| [generate |]]; cbn [tcw_falsy]; [discriminate | |];
    (destruct (invalid_address a); [discriminate |]);
    (destruct (window w) as [win |]; [| discriminate]);
    destruct (crypto w) as [[[uuid |]] |]; unfold_js;
    (destruct (JsDate.toISOString _) as [expiration | e1];
     [| destruct e1; discriminate]);
    (destruct (JsDate.toISOString _) as [notbefore | e2];
     [| destruct e2; discriminate]);
    try discriminate;
    norm_history;
    match goal with
    | |- context [generate ?hh a ?cfg] =>
        destruct (generate hh a cfg) as [m | e]; [| destruct e; discriminate];
        intros Hrun; injection Hrun as _ <-;
        exists cfg; norm_history; reflexivity
    end.
Qed.

Lemma signSiweWithWorld_fulfilled_history (text : string) (w : World)
    (h h' : History) (signResult : SignResult) :
  signSiweWithWorld text w h = (Ok signResult, h') ->
  has_randomUUID w = true
  /\ exists input,
       wa_statement input = text
       /\ h' = h ++ [EvCall StSignSiweWithWorld; EvIsInstalled; EvRandomUUID;
                     EvDateNow; EvDateNow; EvWalletAuth input;
                     EvFulfilled StSignSiweWithWorld].
Proof.
  unfold signSiweWithWorld, has_randomUUID. unfold_js.
  destruct (isInstalled (MiniKit w) _) as [[|] | e]; unfold_js;
    [| discriminate | destruct e; discriminate].
  destruct (crypto w) as [[[uuid |]] |]; cbn [randomUUID]; unfold_js;
    try discriminate.
  norm_history.
  match goal with
  | |- context [walletAuth (MiniKit w) ?hh ?ii] =>
      destruct (walletAuth (MiniKit w) hh ii) as [[sig | code] | e];
      [| discriminate | destruct e; discriminate];
      unfold_js; norm_history;
      intros Hrun; injection Hrun as _ <-;
      split; [reflexivity |]; exists ii; split; reflexivity
  end.
Qed.

(** X9.  The calls of a fulfilled run of [performTCWWorldAuth], in order:
    one installation test and the generation of the message for the
    wallet address of the MiniKit user, a rendering of the message, a
    second installation test and one signing request whose statement is
    that rendering, then the session with a second rendering; the clock is
    read five times, [crypto.randomUUID] is called twice and [Math.random]
    never. *)
Theorem performTCWWorldAuth_fulfilled_history (tcw : TinyCloudWeb) (w : World)
    (h h' : History) (session : TCWAuthSession) :
  performTCWWorldAuth tcw w h = (Ok session, h') ->
  exists a config input,
    h' = h ++
         [EvConsoleLog "Starting TCW + World authentication flow...";
          EvCall StGetWalletAddress; EvIsInstalled;
          EvFulfilled StGetWalletAddress;
          EvConsoleLog "Got wallet address:";
          EvCall StGenerateSiweWithTCW; EvRandomUUID; EvDateNow; EvDateNow;
          EvGenerateSiweMessage a config;
          EvFulfilled StGenerateSiweWithTCW;
          EvConsoleLog "Generated SIWE message:"; EvPrepareMessage;
          EvCall StSignSiweWithWorld; EvIsInstalled; EvRandomUUID; EvDateNow;
          EvDateNow; EvWalletAuth input;
          EvFulfilled StSignSiweWithWorld;
          EvConsoleLog "Got signature from World:";
          EvCall StInitializeTCWSession; EvDateNow; EvPrepareMessage;
          EvFulfilled StInitializeTCWSession;
          EvConsoleLog "TCW session initialized:"]
    /\ truthy_walletAddress
         (user (MiniKit w)
            (h ++ [EvConsoleLog "Starting TCW + World authentication flow...";
                   EvCall StGetWalletAddress; EvIsInstalled]))
       = Some a
    /\ invalid_address a = false.
Proof.
  intros Hrun.
  generalize (performTCWWorldAuth_run tcw w h). rewrite Hrun.
  inversion 1 as
    [ | | | |
    | | win a h1 m h2 text r h3 s h4 Hwin H1 H2 Hr H3 H4 Hs ]; subst.
  destruct (getWalletAddress_fulfilled_history _ _ _ _ H1) as (-> & Huser).
  destruct (generateSiweWithTCW_fulfilled_history _ _ _ _ _ _ H2) as (config & ->).
  destruct (signSiweWithWorld_fulfilled_history _ _ _ _ _ H3)
    as (Huuid & input & Htext & ->).
  rewrite Huuid in *.
  rewrite initializeTCWSession_run in H4.
  match type of H4 with
  | context [settled _ ?o] => destruct o as [text' | e]; [| discriminate H4]
  end.
  injection H4 as _ <-.
  exists a, config, input.
  split; [norm_history; reflexivity |].
  split; [revert Huser; norm_history; intros Huser; exact Huser |].
  destruct (invalid_address a) eqn:Haddr; [| reflexivity].
  exfalso. revert H2. unfold generateSiweWithTCW. unfold_js.
  destruct (tcw_falsy tcw); [discriminate |].
  rewrite Haddr. discriminate.
Qed.

Lemma performTCWWorldAuth_fulfilled_history_witness :
  count_events (fun e => match e with EvDateNow => true | _ => false end)
    (snd (performTCWWorldAuth sample_tcw
            (sample_world (Ok (SuccessPayload "0xsig"))) [])) = 5
  /\ exists config,
       In (EvGenerateSiweMessage sample_address config)
          (snd (performTCWWorldAuth sample_tcw
                  (sample_world (Ok (SuccessPayload "0xsig"))) [])).
Proof.
  destruct (performTCWWorldAuth sample_tcw
              (sample_world (Ok (SuccessPayload "0xsig"))) [])
    as [[s | e] h'] eqn:Hrun; [| discriminate Hrun].
  destruct (performTCWWorldAuth_fulfilled_history _ _ _ _ _ Hrun)
    as (a & config & input & Hh & Ha & _).
  cbn in Ha. injection Ha as <-.
  cbn [snd]. rewrite Hh. split; [reflexivity |].
  exists config. cbn. tauto.
Defined.

(** * The component *)

(** ** The sign-in handler *)

(** X10.  [handleTinyCloudAuth] never changes the [tcw] cell and never
    shows the generic text "Authentication failed. Please try again.":
    every error of the pipeline is a [TCWAuthError].  Without the SDK it
    sets the error "TinyCloud Web SDK not initialized" and does not run
    the pipeline.  With the SDK it ends with [loading] false; on success
    the user has the address of the session, the session is kept and the
    error is cleared; on failure the user and the session stay as they
    were and the error is "Authentication failed: " followed by the
    message of the error. *)
Theorem handleTinyCloudAuth_outcome (st : ComponentState) (w : World) (h : History) :
  let st' := fst (handleTinyCloudAuth st w h) in
  st_tcw st' = st_tcw st
  /\ st_error st' <> Some "Authentication failed. Please try again."
  /\ (tcw_falsy (st_tcw st) = true ->
      st' = setError st (Some "TinyCloud Web SDK not initialized")
      /\ snd (handleTinyCloudAuth st w h) = h)
  /\ (tcw_falsy (st_tcw st) = false ->
      st_loading st' = false
      /\ match fst (performTCWWorldAuth (st_tcw st) w h) with
         | Ok session =>
             st_user st' =
               Some {| app_walletAddress := Some (session_address session);
                       app_username := None;
                       app_profilePictureUrl := None |}
             /\ st_tcwSession st' = Some session
             /\ st_error st' = None
         | Throw e =>
             st_user st' = st_user st
             /\ st_tcwSession st' = st_tcwSession st
             /\ st_error st' =
                  Some (String.append "Authentication failed: " (error_message e))
         end).
Proof.
  cbv zeta. unfold handleTinyCloudAuth.
  destruct (tcw_falsy (st_tcw st)) eqn:Htcw.
  - cbn. repeat split; try discriminate.
  - destruct (performTCWWorldAuth (st_tcw st) w h) as [[session | e] h'] eqn:Hrun.
    + cbn. repeat split; try discriminate.
    + rewrite (performTCWWorldAuth_failure_is_classified _ _ _ _ _ Hrun).
      cbn. repeat split; try discriminate.
Qed.

(** A sign-in that the wallet refuses. *)
Lemma handleTinyCloudAuth_outcome_witness :
  st_error
    (fst (handleTinyCloudAuth (setTcw initial_state sample_tcw)
            (sample_world (Ok (ErrorPayload "user_rejected"))) []))
  = Some "Authentication failed: Failed to sign message with World".
Proof.
  exact (proj2 (proj2 (proj2 (proj2 (proj2 (proj2 (handleTinyCloudAuth_outcome
           (setTcw initial_state sample_tcw)
           (sample_world (Ok (ErrorPayload "user_rejected"))) []))) eq_refl)))).
Defined.

(** X11.  Signing out undoes a sign-in: from a component that is signed
    out and at rest, [handleTinyCloudAuth] followed by [handleSignOut]
    gives the state back, whether the sign-in succeeded, failed or could
    not start; and signing out twice is signing out once. *)
Theorem handleSignOut_undoes_sign_in (st : ComponentState) :
  handleSignOut (handleSignOut st) = handleSignOut st
  /\ (signed_out st ->
      forall w h, handleSignOut (fst (handleTinyCloudAuth st w h)) = st).
Proof.
  split; [reflexivity |].
  intros (Hu & Hs & He & Hl) w h.
  destruct st as [u l e t s]. cbn in Hu, Hs, He, Hl. subst.
  unfold handleTinyCloudAuth. cbn [st_tcw].
  destruct (tcw_falsy t); [reflexivity |].
  destruct (performTCWWorldAuth t w h) as [[session | e] h'];
    [reflexivity |].
  destruct (instanceof_TCWAuthError e); reflexivity.
Qed.

Lemma handleSignOut_undoes_sign_in_witness :
  handleSignOut
    (fst (handleTinyCloudAuth (setTcw initial_state sample_tcw)
            (sample_world (Ok (SuccessPayload "0xsig"))) []))
  = setTcw initial_state sample_tcw.
Proof.
  apply (proj2 (handleSignOut_undoes_sign_in (setTcw initial_state sample_tcw))).
  repeat split.
Defined.

(** ** Strings cut for display *)

Lemma string_append_assoc (p q r : string) :
  String.append (String.append p q) r = String.append p (String.append q r).
Proof. induction p as [| c p IH]; cbn; [reflexivity | now rewrite IH]. Qed.

Lemma string_length_append (p q : string) :
  String.length (String.append p q) = String.length p + String.length q.
Proof. induction p as [| c p IH]; cbn; [reflexivity | now rewrite IH]. Qed.

Lemma string_length_substring (n m : nat) (s : string) :
  String.length (String.substring n m s) = Nat.min m (String.length s - n).
Proof.
  revert n m. induction s as [| c s IH]; intros n m.
  - destruct n, m; reflexivity.
  - destruct n as [| n].
    + destruct m as [| m]; [reflexivity |]. cbn. now rewrite IH, Nat.sub_0_r.
    + cbn. apply IH.
Qed.

Lemma string_split_at (n : nat) (s : string) :
  n <= String.length s ->
  exists p q, s = String.append p q /\ String.length p = n.
Proof.
  revert n. induction s as [| c s IH]; intros n Hn.
  - exists "", "". cbn in *. split; [reflexivity | lia].
  - destruct n as [| n].
    + exists "", (String c s). auto.
    + cbn in Hn. destruct (IH n ltac:(lia)) as (p & q & -> & Hp).
      exists (String c p), q. cbn. auto.
Qed.

Lemma substring_whole (m : nat) (s : string) :
  String.length s <= m -> String.substring 0 m s = s.
Proof.
  revert m. induction s as [| c s IH]; intros m Hm.
  - destruct m; reflexivity.
  - destruct m as [| m]; cbn in *; [lia |]. now rewrite IH by lia.
Qed.

Lemma substring_first (p s : string) :
  String.substring 0 (String.length p) (String.append p s) = p.
Proof.
  induction p as [| c p IH]; cbn.
  - destruct s; reflexivity.
  - now rewrite IH.
Qed.

Lemma substring_after (p s : string) (m : nat) :
  String.substring (String.length p) m (String.append p s)
  = String.substring 0 m s.
Proof. induction p as [| c p IH]; cbn; [reflexivity | exact IH]. Qed.

(** X12.  The short form of an address on the connected panel has the
    first six and the last four code units of the address around three
    dots: for an address of at least ten code units these are two pieces
    of it that do not overlap, and the short form has 13 code units; in
    general it has [min 6 n + 3 + min 4 n] code units for an address of
    [n], so that an address shorter than ten is shown with code units
    repeated. *)
Theorem short_address_shape (a : string) :
  String.length (short_address a)
  = Nat.min 6 (String.length a) + 3 + Nat.min 4 (String.length a)
  /\ (10 <= String.length a ->
      String.length (short_address a) = 13
      /\ exists first middle last,
           a = String.append first (String.append middle last)
           /\ String.length first = 6
           /\ String.length last = 4
           /\ short_address a
              = String.append first (String.append "..." last)).
Proof.
  split.
  - unfold short_address, JsString.slice, slice_last.
    rewrite !string_length_append, !string_length_substring. cbn [String.length].
    lia.
  - intros Hlen. split.
    + unfold short_address, JsString.slice, slice_last.
      rewrite !string_length_append, !string_length_substring. cbn [String.length].
      lia.
    + destruct (string_split_at 6 a ltac:(lia)) as (first & rest & -> & Hfirst).
      rewrite string_length_append in Hlen.
      destruct (string_split_at (String.length rest - 4) rest ltac:(lia))
        as (middle & last & -> & Hmiddle).
      rewrite string_length_append in Hlen, Hmiddle.
      assert (Hlast : String.length last = 4) by lia.
      exists first, middle, last.
      split; [reflexivity |]. split; [exact Hfirst |]. split; [exact Hlast |].
      unfold short_address, JsString.slice, slice_last.
      f_equal.
      * rewrite <- Hfirst at 1. rewrite Nat.sub_0_r. apply substring_first.
      * f_equal.
        rewrite <- string_append_assoc.
        replace (String.length (String.append (String.append first middle) last) - 4)
          with (String.length (String.append first middle))
          by (rewrite !string_length_append; lia).
        rewrite substring_after. apply substring_whole. lia.
Qed.

Lemma short_address_shape_witness :
  short_address sample_address = "0xAbC1...dEaD"
  /\ String.length (short_address sample_address) = 13.
Proof.
  split; [reflexivity |].
  exact (proj1 (proj2 (short_address_shape sample_address) ltac:(cbn; lia))).
Defined.

(** ** What is rendered *)

(** X13.  What the component shows once a sign-in started from rest with
    the SDK has settled.  After a success: the connected panel, with no
    error line and no picture, the short form of the address of the
    session as the name (["No Address"] when that address is empty) and
    the first ten code units of the signature followed by three dots.
    After a failure: the sign-in button again, enabled and labelled "Sign
    in with TinyCloud", under the error line "Authentication failed: "
    followed by the message of the error. *)
Theorem render_after_sign_in (st : ComponentState) (w : World) (h : History) :
  signed_out st ->
  tcw_falsy (st_tcw st) = false ->
  render (fst (handleTinyCloudAuth st w h)) =
    match fst (performTCWWorldAuth (st_tcw st) w h) with
    | Ok session =>
        ConnectedView None None
          (if JsString.falsy (session_address session) then "No Address"
           else short_address (session_address session))
          (Some (String.append
                   (JsString.slice (session_signature session) 0 10) "..."))
    | Throw e =>
        SignInView
          (Some (String.append "Authentication failed: " (error_message e)))
          "Sign in with TinyCloud" false
    end.
Proof.
  intros (Hu & Hs & He & Hl) Htcw.
  unfold handleTinyCloudAuth. rewrite Htcw.
  destruct (performTCWWorldAuth (st_tcw st) w h) as [[session | e] h'] eqn:Hrun.
  - cbn. unfold display_name. cbn.
    destruct (JsString.falsy (session_address session)); reflexivity.
  - rewrite (performTCWWorldAuth_failure_is_classified _ _ _ _ _ Hrun).
    unfold render, button_label, button_disabled. cbn. rewrite Hu, Htcw.
    reflexivity.
Qed.

Lemma render_after_sign_in_witness :
  render (fst (handleTinyCloudAuth (setTcw initial_state sample_tcw)
                 (sample_world (Ok (SuccessPayload "0xsignature-of-the-wallet"))) []))
  = ConnectedView None None "0xAbC1...dEaD" (Some "0xsignatur...").
Proof.
  rewrite (render_after_sign_in (setTcw initial_state sample_tcw)
             (sample_world (Ok (SuccessPayload "0xsignature-of-the-wallet"))) []
             ltac:(repeat split) eq_refl).
  reflexivity.
Defined.

(** X14.  The sign-in button is enabled exactly when its label is "Sign in
    with TinyCloud", that is when the component is not loading and has
    the SDK; and a handler started from an enabled button never meets the
    guard of line 304: its error is not "TinyCloud Web SDK not
    initialized". *)
Theorem button_enabled_iff_label (st : ComponentState) :
  (button_disabled st = false <-> button_label st = "Sign in with TinyCloud")
  /\ (button_disabled st = false <->
      st_loading st = false /\ tcw_falsy (st_tcw st) = false)
  /\ (button_disabled st = false ->
      forall w h,
        st_error (fst (handleTinyCloudAuth st w h))
        <> Some "TinyCloud Web SDK not initialized").
Proof.
  unfold button_disabled, button_label, handleTinyCloudAuth.
  destruct (st_loading st), (tcw_falsy (st_tcw st)); cbn;
    (split; [split; (discriminate || reflexivity) |]);
    (split; [split; [(discriminate || auto) | intros [? ?]; (discriminate || reflexivity)] |]);
    try discriminate.
  intros _ w h.
  destruct (performTCWWorldAuth (st_tcw st) w h) as [[session | e] h'];
    cbn; [discriminate |].
  destruct (instanceof_TCWAuthError e); cbn; discriminate.
Qed.

Lemma button_enabled_iff_label_witness :
  button_label (setTcw initial_state sample_tcw) = "Sign in with TinyCloud"
  /\ button_label initial_state = "Initializing...".
Proof.
  split; [| reflexivity].
  exact (proj1 (proj1 (button_enabled_iff_label (setTcw initial_state sample_tcw)))
           eq_refl).
Defined.

(** X15.  The effect of the first render, on a component with no user
    that is not loading.  When the SDK loads, the button is enabled with
    the label "Sign in with TinyCloud".  When loading the SDK throws, the
    error line reads "Failed to initialize TinyCloud Web SDK" and the
    button is disabled with the label "Initializing..."; a handler run in
    that state starts no pipeline and leaves the button as it is. *)
Theorem initTCW_outcome (st : ComponentState) (h : History) :
  st_user st = None ->
  st_loading st = false ->
  (forall method,
      render (fst (initTCW (Ok method) st h)) =
        SignInView (truthy_string (st_error st)) "Sign in with TinyCloud" false)
  /\ (forall e,
        let st' := fst (initTCW (Throw e) st h) in
        (tcw_falsy (st_tcw st) = true ->
         render st' =
           SignInView (Some "Failed to initialize TinyCloud Web SDK")
             "Initializing..." true
         /\ forall w h0,
              snd (handleTinyCloudAuth st' w h0) = h0
              /\ render (fst (handleTinyCloudAuth st' w h0)) =
                   SignInView (Some "TinyCloud Web SDK not initialized")
                     "Initializing..." true)).
Proof.
  intros Hu Hl. split.
  - intros method. unfold render, button_label, button_disabled. cbn.
    rewrite Hu, Hl. reflexivity.
  - intros e. cbv zeta. intros Htcw. split.
    + unfold render, button_label, button_disabled. cbn.
      rewrite Hu, Hl, Htcw. reflexivity.
    + intros w h0. unfold handleTinyCloudAuth. cbn [initTCW fst setError st_tcw].
      rewrite Htcw. cbn [fst snd]. split; [reflexivity |].
      unfold render, button_label, button_disabled. cbn.
      rewrite Hu, Hl, Htcw. reflexivity.
Qed.

Lemma initTCW_outcome_witness :
  render (fst (initTCW (Throw (ForeignError "Error" "Cannot find module"))
                 initial_state []))
  = SignInView (Some "Failed to initialize TinyCloud Web SDK") "Initializing..." true.
Proof.
  exact (proj1 (proj2 (initTCW_outcome initial_state [] eq_refl eq_refl)
                  (ForeignError "Error" "Cannot find module") eq_refl)).
Defined.
